(** * Study Tracker: a shallow embedding of [app.py] and its specification

    The program is a single Python script.  Its logic is embedded as follows.

    - [PyDate]: the part of Python's [datetime.date] that the script uses:
      field validation, lexicographic comparison, [toordinal], subtraction
      ([.days]), [isoformat] and [fromisoformat].
    - [Frames]: a pandas [DataFrame] as its column labels and its rows.
    - [Ledgers]: the three CSV files and their [load_*]/[save_*] functions.
    - [Engine]: [planned_minutes_per_day], [cumulative_planned],
      [cumulative_actual], [week_index].
    - [Feed]: [fetch_rss], with the network and the feed parser as parameters
      and Python exceptions as values of an error monad.
    - [Handlers]: the button handlers of the page as state transformers.
    - [Views]: what the tabs compute before they draw (the daily totals, the
      table of daily tasks, the lines of a feed).
    - [Session]: a sequence of runs of the page, one per user action.

    Python [int]s are unbounded and are modelled by [Z]; the sums pandas
    takes over the [minutes] column are [int64] sums, whose wrap-around is
    written out ([wrap64]); a missing value ([NaN]) of a text column is
    [None]; a [dict] is a [gmap] (no claim depends on key order).  What
    pandas does with the text of a cell is a parameter ([pandas]): the
    strings [pd.to_datetime] reads as dates other than [YYYY-MM-DD], the
    range of its timestamps, and what [pd.read_csv] returns for a text
    column that [to_csv] wrote.  Outside the model: the bytes of the CSV
    files (a file is the table [pd.read_csv] finds in it), a missing value
    in the [date] or [minutes] column, and the parts of the page that only
    draw. *)

From Stdlib Require Import ZArith Lia Ascii String List Bool Sorted.
From stdpp Require Import base option list gmap strings fin_maps.

Local Open Scope Z_scope.

(* ===================================================================== *)
(** ** Python's [datetime.date] *)
(* ===================================================================== *)

Module PyDate.

Definition MINYEAR : Z := 1.
Definition MAXYEAR : Z := 9999.

(** [_is_leap(year)] *)
Definition is_leap (year : Z) : bool :=
  (year mod 4 =? 0) && (negb (year mod 100 =? 0) || (year mod 400 =? 0)).

(** [_days_before_year(year)] *)
Definition days_before_year (year : Z) : Z :=
  let y := year - 1 in y * 365 + y / 4 - y / 100 + y / 400.

(** [_DAYS_IN_MONTH[month]] for [1 <= month <= 12] *)
Definition DAYS_IN_MONTH (month : Z) : Z :=
  match month with
  | 1 => 31 | 2 => 28 | 3 => 31 | 4 => 30 | 5 => 31 | 6 => 30
  | 7 => 31 | 8 => 31 | 9 => 30 | 10 => 31 | 11 => 30 | 12 => 31
  | _ => -1
  end.

(** [_DAYS_BEFORE_MONTH[month]] for [1 <= month <= 12] *)
Definition DAYS_BEFORE_MONTH (month : Z) : Z :=
  match month with
  | 1 => 0 | 2 => 31 | 3 => 59 | 4 => 90 | 5 => 120 | 6 => 151
  | 7 => 181 | 8 => 212 | 9 => 243 | 10 => 273 | 11 => 304 | 12 => 334
  | _ => -1
  end.

(** [_days_in_month(year, month)] *)
Definition days_in_month (year month : Z) : Z :=
  if (month =? 2) && is_leap year then 29 else DAYS_IN_MONTH month.

(** [_days_before_month(year, month)] *)
Definition days_before_month (year month : Z) : Z :=
  DAYS_BEFORE_MONTH month + (if (2 <? month) && is_leap year then 1 else 0).

(** [_ymd2ord(year, month, day)] *)
Definition ymd2ord (year month day : Z) : Z :=
  days_before_year year + days_before_month year month + day.

(** [_check_date_fields]: the test a [date] passes when it is built. *)
Definition check_date_fields (year month day : Z) : bool :=
  (MINYEAR <=? year) && (year <=? MAXYEAR) &&
  (1 <=? month) && (month <=? 12) &&
  (1 <=? day) && (day <=? days_in_month year month).

(** A [date] object: its three fields, which passed [_check_date_fields]. *)
Record date : Type := Date {
  year : Z;
  month : Z;
  day : Z;
  date_ok : Is_true (check_date_fields year month day)
}.

(** The constructor [date(year, month, day)]; [None] stands for the
    [ValueError] of a field out of range. *)
Definition mk_date (y m d : Z) : option date :=
  match Is_true_dec (check_date_fields y m d) with
  | left H => Some (Date y m d H)
  | right _ => None
  end.

(** [date.toordinal()] *)
Definition toordinal (d : date) : Z := ymd2ord (year d) (month d) (day d).

(** [_cmp] on the field triples, as [date._cmp] does. *)
Definition cmp (a b : date) : comparison :=
  match year a ?= year b with
  | Eq => match month a ?= month b with
          | Eq => day a ?= day b
          | c => c
          end
  | c => c
  end.

Definition ltb (a b : date) : bool := match cmp a b with Lt => true | _ => false end.
Definition leb (a b : date) : bool := match cmp a b with Gt => false | _ => true end.
Definition geb (a b : date) : bool := leb b a.
Definition gtb (a b : date) : bool := ltb b a.
Definition eqb (a b : date) : bool := match cmp a b with Eq => true | _ => false end.

(** [(a - b).days]: [date.__sub__] builds [timedelta(days1 - days2)] from the
    two ordinals. *)
Definition sub_days (a b : date) : Z := toordinal a - toordinal b.

(** *** Text form *)

Definition digit_char (n : Z) : ascii := ascii_of_nat (Z.to_nat (48 + n)).

Definition digit_val (c : ascii) : option Z :=
  let n := Z.of_nat (nat_of_ascii c) in
  if (48 <=? n) && (n <=? 57) then Some (n - 48) else None.

(** ["%02d" % n] for [0 <= n < 100] *)
Definition fmt02 (n : Z) : string :=
  String (digit_char (n / 10 mod 10)) (String (digit_char (n mod 10)) EmptyString).

(** ["%04d" % n] for [0 <= n < 10000] *)
Definition fmt04 (n : Z) : string :=
  String (digit_char (n / 1000 mod 10)) (String (digit_char (n / 100 mod 10)) (fmt02 n)).

(** [date.isoformat()], which is also [str(date)]:
    ["%04d-%02d-%02d" % (year, month, day)]. *)
Definition isoformat (d : date) : string :=
  (fmt04 (year d) ++ "-" ++ fmt02 (month d) ++ "-" ++ fmt02 (day d))%string.

(** [date.fromisoformat(s)] on the extended format [YYYY-MM-DD], the one
    [isoformat] writes.  [None] stands for [ValueError]. *)
Definition fromisoformat (s : string) : option date :=
  match s with
  | String y1 (String y2 (String y3 (String y4 (String s1
      (String m1 (String m2 (String s2 (String d1 (String d2 EmptyString))))))))) =>
      if negb (Ascii.eqb s1 "-" && Ascii.eqb s2 "-") then None else
      a ← digit_val y1; b ← digit_val y2; c ← digit_val y3; e ← digit_val y4;
      f ← digit_val m1; g ← digit_val m2;
      h ← digit_val d1; i ← digit_val d2;
      mk_date (1000 * a + 100 * b + 10 * c + e) (10 * f + g) (10 * h + i)
  | _ => None
  end.

End PyDate.

(* ===================================================================== *)
(** ** pandas [DataFrame]s *)
(* ===================================================================== *)

Module Frames.

(** A frame is its column labels and its rows, in index order.  The row type
    [R] fixes the cell types of the columns the script reads. *)
Record DataFrame (R : Type) : Type := Frame {
  columns : list string;
  rows : list R
}.
Arguments Frame {R} _ _.
Arguments columns {R} _.
Arguments rows {R} _.

(** [pd.DataFrame(columns=cols)] *)
Definition empty_frame {R} (cols : list string) : DataFrame R := Frame cols [].

(** [len(df)] *)
Definition len {R} (df : DataFrame R) : Z := Z.of_nat (length (rows df)).

(** [df[mask]] / [df.loc[mask]] with the mask computed row by row. *)
Definition select {R} (mask : R -> bool) (df : DataFrame R) : DataFrame R :=
  Frame (columns df) (List.filter mask (rows df)).

Definition has_label (c : string) (cols : list string) : bool :=
  existsb (String.eqb c) cols.

(** [pd.concat([a, b], ignore_index=True)]: the rows of [a] then those of
    [b]; the labels of [a], then the labels of [b] that [a] lacks. *)
Definition concat {R} (a b : DataFrame R) : DataFrame R :=
  Frame (columns a ++ List.filter (fun c => negb (has_label c (columns a))) (columns b))
        (rows a ++ rows b).

(** [pd.DataFrame(records)] for a list of dicts with keys [cols]; without
    records the frame has no column either. *)
Definition of_records {R} (cols : list string) (rs : list R) : DataFrame R :=
  Frame (match rs with [] => [] | _ => cols end) rs.

End Frames.

(* ===================================================================== *)
(** ** The three ledgers and their files *)
(* ===================================================================== *)

Module Ledgers.
Import Frames.

(** A value found in the [date] column during a session. *)
Inductive date_cell : Type :=
| DateObj (d : PyDate.date)              (* a [datetime.date] *)
| Stamp (d : PyDate.date) (secs : Z)     (* a timestamp: a date and a time of day *)
| Text (s : string).                     (* a [str] *)

(** A row of the progress table; [D] is the type of its [date] cell:
    [string] in the file, [PyDate.date] after [load_progress], [date_cell]
    for what [save_progress] accepts.  A [module] or [note] cell is missing
    ([NaN], here [None]) or holds a value, given by the text it prints as;
    [minutes] is a cell of an [int64] column. *)
Record entry (D : Type) : Type := Entry {
  date : D;
  module : option string;
  minutes : Z;
  note : option string
}.
Arguments Entry {D} _ _ _ _.
Arguments date {D} _.
Arguments module {D} _.
Arguments minutes {D} _.
Arguments note {D} _.

Definition set_date {D E} (d : E) (r : entry D) : entry E :=
  Entry d (module r) (minutes r) (note r).

(** A row of the milestone table. *)
Record milestone : Type := Milestone {
  week : Z;
  done_date : string;
  ms_note : string
}.

(** A row of the reflection table; [T] is the type of its [timestamp] cell. *)
Record reflection (T : Type) : Type := Reflection {
  timestamp : T;
  rf_date : string;
  topic : string;
  mood : string;
  text : string;
  tags : string
}.
Arguments Reflection {T} _ _ _ _ _ _.
Arguments timestamp {T} _.
Arguments rf_date {T} _.
Arguments topic {T} _.
Arguments mood {T} _.
Arguments text {T} _.
Arguments tags {T} _.

(** The directory of the script: each CSV file is absent ([None]) or holds a
    table, given as [pd.read_csv] returns it: a [module] or [note] cell of
    the progress table that [pd.read_csv] takes for a missing value is
    [None]. *)
Record files : Type := Files {
  progress_csv : option (DataFrame (entry string));
  milestones_csv : option (DataFrame milestone);
  reflections_csv : option (DataFrame (reflection string))
}.

Definition progress_columns : list string := ["date"; "module"; "minutes"; "note"]%string.
Definition milestones_columns : list string := ["week"; "done_date"; "note"]%string.
Definition reflections_columns : list string :=
  ["timestamp"; "date"; "topic"; "mood"; "text"; "tags"]%string.

(** What the script relies on pandas for. *)
Record pandas : Type := Pandas {
  (** the timestamps pandas can hold, as a date and the seconds since
      midnight; the range depends on the resolution pandas picks *)
  representable : PyDate.date -> Z -> bool;
  (** [parse_text col s]: [pd.to_datetime] on the string [s] of a column
      [col] (pandas reads the strings of a column by the format of the first
      of them): the date and the seconds since midnight, [None] when pandas
      does not read the string as a date *)
  parse_text : list date_cell -> string -> option (PyDate.date * Z);
  (** [read_back col c]: what [pd.read_csv] returns for the cell [c] of a
      column [col] that [to_csv] wrote.  A missing value is written as the
      empty cell; an empty cell and a text that spells a missing value come
      back missing; a column whose texts all look like numbers comes back
      as numbers *)
  read_back : list (option string) -> option string -> option string
}.

Section Pandas.

Variable pd : pandas.

(** The timestamps of the reflection table and their parser. *)
Variable T : Type.
Variable parse_timestamp : string -> option T.

(** A cell that is no string, or a string [YYYY-MM-DD] of a date. *)
Definition iso_cell (c : date_cell) : bool :=
  match c with
  | Text s => bool_decide (is_Some (PyDate.fromisoformat s))
  | _ => true
  end.

Definition iso_column (col : list date_cell) : bool := forallb iso_cell col.

(** The timestamp pandas reads a string of the column [col] as: in a column
    whose strings are all of the form [YYYY-MM-DD], that day at midnight. *)
Definition read_date (col : list date_cell) (s : string) : option (PyDate.date * Z) :=
  if iso_column col then d ← PyDate.fromisoformat s; Some (d, 0)
  else parse_text pd col s.

(** A timestamp within the range, or the exception pandas raises. *)
Definition in_bounds (ts : PyDate.date * Z) : option (PyDate.date * Z) :=
  if representable pd ts.1 ts.2 then Some ts else None.

(** [pd.to_datetime(col)] on one cell of the column: the date and the
    seconds since midnight.  [None] stands for the exception pandas raises
    (a value out of range, a string that is not a date). *)
Definition to_datetime (col : list date_cell) (c : date_cell)
  : option (PyDate.date * Z) :=
  match c with
  | DateObj d => in_bounds (d, 0)
  | Stamp d secs => in_bounds (d, secs)
  | Text s => ts ← read_date col s; in_bounds ts
  end.

(** [pd.to_datetime(col).dt.date] on one cell of the column *)
Definition to_date (col : list date_cell) (c : date_cell) : option PyDate.date :=
  fst <$> to_datetime col c.

(** The [date] column of a table [pd.read_csv] returns: strings. *)
Definition text_column (rs : list (entry string)) : list date_cell :=
  (fun r => Text (date r)) <$> rs.

(** One row of [df["date"] = pd.to_datetime(df["date"]).dt.date], on the
    strings [pd.read_csv] returns; [col] is the column. *)
Definition load_row (col : list date_cell) (r : entry string)
  : option (entry PyDate.date) :=
  d ← to_date col (Text (date r)); Some (set_date d r).

(** One row of
    [out["date"] = pd.to_datetime(out["date"]).dt.date.astype(str)] and of
    [out.to_csv], as the file reads back; [col] is the [date] column of
    [out], [mods] and [notes] are its two text columns. *)
Definition save_row (col : list date_cell) (mods notes : list (option string))
    (r : entry date_cell) : option (entry string) :=
  d ← to_date col (date r);
  Some (Entry (PyDate.isoformat d) (read_back pd mods (module r)) (minutes r)
          (read_back pd notes (note r))).

(** [load_progress()] *)
Definition load_progress (fs : files) : option (DataFrame (entry PyDate.date)) :=
  match progress_csv fs with
  | Some df =>
      if len df =? 0 then Some (Frame (columns df) [])
      else
        rs ← mapM (load_row (text_column (rows df))) (rows df);
        Some (Frame (columns df) rs)
  | None => Some (empty_frame progress_columns)
  end.

(** [save_progress(df)]; [None] when [pd.to_datetime] raises, in which case
    nothing is written. *)
Definition save_progress (df : DataFrame (entry date_cell)) (fs : files) : option files :=
  rs ← mapM (save_row (date <$> rows df) (module <$> rows df) (note <$> rows df))
         (rows df);
  Some (Files (Some (Frame (columns df) rs)) (milestones_csv fs) (reflections_csv fs)).

(** [load_milestones()] *)
Definition load_milestones (fs : files) : DataFrame milestone :=
  match milestones_csv fs with
  | Some df => df
  | None => empty_frame milestones_columns
  end.

(** [save_milestones(df)] *)
Definition save_milestones (df : DataFrame milestone) (fs : files) : files :=
  Files (progress_csv fs) (Some df) (reflections_csv fs).

Definition set_timestamp {A B} (t : B) (r : reflection A) : reflection B :=
  Reflection t (rf_date r) (topic r) (mood r) (text r) (tags r).

(** [load_reflections()]; [errors="coerce"] turns a timestamp that does not
    parse into [NaT], here [None]. *)
Definition load_reflections (fs : files) : DataFrame (reflection (option T)) :=
  match reflections_csv fs with
  | Some df =>
      if len df =? 0 then Frame (columns df) []
      else Frame (columns df)
             (List.map (fun r => set_timestamp (parse_timestamp (timestamp r)) r) (rows df))
  | None => empty_frame reflections_columns
  end.

(** [save_reflections(df)]: the frame as its cells print. *)
Definition save_reflections (df : DataFrame (reflection string)) (fs : files) : files :=
  Files (progress_csv fs) (milestones_csv fs) (Some df).

End Pandas.

End Ledgers.

(* ===================================================================== *)
(** ** The reconciliation functions *)
(* ===================================================================== *)

Module Engine.
Import Frames Ledgers.

(** [plan["meta"]["modules"][m]]: the value read from [plan.yaml]. *)
Record module_meta : Type := ModuleMeta {
  meta_planned_minutes_per_day : Z
}.

(** What the script reads of [plan.yaml]: [plan["meta"]["start_date"]], a
    string, and [plan["meta"]["modules"]], a mapping keyed by module name. *)
Record plan : Type := Plan {
  start_date : string;
  modules : gmap string module_meta
}.

(** [sum(xs)]: Python adds from the left, starting at [0]. *)
Definition py_sum (xs : list Z) : Z := fold_left Z.add xs 0.

(** [d.values()] *)
Definition values (d : gmap string Z) : list Z := (map_to_list d).*2.

(** [planned_minutes_per_day(plan)]; [int] of an integer is that integer. *)
Definition planned_minutes_per_day (p : plan) : gmap string Z :=
  meta_planned_minutes_per_day <$> modules p.

(** [cumulative_planned(plan, start_date, end_date)] *)
Definition cumulative_planned (pl : plan) (start_date end_date : PyDate.date)
  : gmap string Z :=
  let p := planned_minutes_per_day pl in
  let days := PyDate.sub_days end_date start_date + 1 in
  let totals := (fun v => v * days) <$> p in
  <["total"%string := py_sum (values totals)]> totals.

(** An [int64]: numpy keeps the low 64 bits of a result, read as a signed
    number. *)
Definition wrap64 (z : Z) : Z := (z + 2 ^ 63) mod 2 ^ 64 - 2 ^ 63.

(** [col.sum()] on an [int64] column: each addition wraps. *)
Definition np_sum (xs : list Z) : Z := fold_left (fun a x => wrap64 (a + x)) xs 0.

(** One row added to the grouped sums: the row's minutes go to the key of
    its module, which starts at [0]; a row whose module is missing belongs
    to no group. *)
Definition group_step (acc : gmap string Z) (r : entry PyDate.date) : gmap string Z :=
  match module r with
  | Some m => <[m := wrap64 (default 0 (acc !! m) + minutes r)]> acc
  | None => acc
  end.

(** [sub.groupby("module")["minutes"].sum().to_dict()]: one key per module
    that occurs, holding the [int64] sum of the [minutes] of its rows. *)
Definition groupby_module_sum (sub : list (entry PyDate.date)) : gmap string Z :=
  fold_left group_step sub ∅.

(** The mask [(df["date"] >= start_date) & (df["date"] <= end_date)]. *)
Definition in_range (start_date end_date : PyDate.date) (r : entry PyDate.date) : bool :=
  PyDate.geb (date r) start_date && PyDate.leb (date r) end_date.

(** [cumulative_actual(df, start_date, end_date)] *)
Definition cumulative_actual (df : DataFrame (entry PyDate.date))
    (start_date end_date : PyDate.date) : gmap string Z :=
  if len df =? 0 then {["total"%string := 0]}
  else
    let sub := select (in_range start_date end_date) df in
    let totals := groupby_module_sum (rows sub) in
    <["total"%string :=
        if negb (len sub =? 0) then np_sum (minutes <$> rows sub) else 0]> totals.

(** [week_index(plan, today)]; [None] when [fromisoformat] raises. *)
Definition week_index (pl : plan) (today : PyDate.date) : option Z :=
  start ← PyDate.fromisoformat (start_date pl);
  let delta_days := PyDate.sub_days today start in
  if delta_days <? 0 then Some 0 else Some (delta_days / 7 + 1).

End Engine.

(* ===================================================================== *)
(** ** The feed reader *)
(* ===================================================================== *)

Module Feed.

(** A raised exception, as far as the script looks at it: [str(ex)]. *)
Record exn : Type := Exn { str_ex : string }.

(** The outcome of a block of Python code: a value, or a raised exception
    (an instance of [Exception]). *)
Inductive outcome (A : Type) : Type :=
| Return (a : A)
| Raise (ex : exn).
Arguments Return {A} _.
Arguments Raise {A} _.

#[global] Instance outcome_ret : MRet outcome := fun A a => Return a.

#[global] Instance outcome_bind : MBind outcome := fun A B k m =>
  match m with
  | Return a => k a
  | Raise ex => Raise ex
  end.

(** An element of [parsed.entries]: its attributes are strings, and any of
    them may be missing. *)
Record feed_entry : Type := FeedEntry {
  fe_title : option string;
  fe_link : option string;
  fe_published : option string;
  fe_updated : option string
}.

(** A dict [{"title": .., "link": .., "published": ..}]. *)
Record item : Type := Item {
  title : string;
  link : string;
  published : string
}.

(** [xs[:n]], also for a negative [n]. *)
Definition slice_to {A} (n : Z) (xs : list A) : list A :=
  if 0 <=? n then firstn (Z.to_nat n) xs
  else firstn (Z.to_nat (Z.of_nat (length xs) + n)) xs.

(** [a or b] on strings *)
Definition str_or (a b : string) : string :=
  if String.eqb a "" then b else a.

Section FetchRss.

(** The world outside the script. *)
Variable response : Type.
(** [requests.get(url, headers=headers, timeout=timeout)] *)
Variable requests_get : string -> Z -> outcome response.
(** [r.raise_for_status()] *)
Variable raise_for_status : response -> outcome unit.
(** [r.text] *)
Variable response_text : response -> string.
(** [feedparser.parse(text).entries] *)
Variable feedparser_parse : string -> outcome (list feed_entry).
(** [s.strip()] *)
Variable strip : string -> string.

Definition make_item (e : feed_entry) : item :=
  let title := strip (default ""%string (fe_title e)) in
  let link := strip (default ""%string (fe_link e)) in
  let published :=
    str_or (default ""%string (fe_published e)) (default ""%string (fe_updated e)) in
  Item title link published.

(** The body of the [try] block of [fetch_rss]. *)
Definition fetch_body (url : string) (max_items timeout : Z) : outcome (list item) :=
  r ← requests_get url timeout;
  _ ← raise_for_status r;
  entries ← feedparser_parse (response_text r);
  mret (List.map make_item (slice_to max_items entries)).

(** [fetch_rss(url, max_items, timeout)]: [try: .. return items, None]
    [except Exception as ex: return [], str(ex)]. *)
Definition fetch_rss (url : string) (max_items timeout : Z)
  : list item * option string :=
  match fetch_body url max_items timeout with
  | Return items => (items, None)
  | Raise ex => ([], Some (str_ex ex))
  end.

End FetchRss.

End Feed.

(* ===================================================================== *)
(** ** The page: one run of the script per user action *)
(* ===================================================================== *)

Module Handlers.
Import Frames Ledgers Engine.

(** The widget values of a run. *)
Record widgets : Type := Widgets {
  log_date : PyDate.date;
  w_module : string;
  w_minutes : Z;
  w_note : string;
  deliverable_done : bool;
  deliverable_note : string;
  w_topic : string;
  w_mood : string;
  w_tags : string;
  w_text : string
}.

(** The button that triggered the run, if any. *)
Inductive button : Type :=
| NoButton
| AddLog
| QuickAdd
| SaveDeliverableStatus
| SaveReflection.

(** What the page tells the user after the deliverable form. *)
Inductive notice : Type :=
| MarkedDone        (* [st.success("Deliverable marked done")] *)
| NoChanges.        (* [st.info("Unchecked - no changes made.")] *)

(** The loaded progress frame holds [datetime.date] objects. *)
Definition as_cells (df : DataFrame (entry PyDate.date)) : DataFrame (entry date_cell) :=
  Frame (columns df) (List.map (fun r => set_date (DateObj (date r)) r) (rows df)).

(** The three statements of the [if done:] branch:
    [ms2 = ms.copy()], [ms2 = ms2[ms2["week"] != current_week]],
    [ms2 = pd.concat([ms2, pd.DataFrame([{..}])], ignore_index=True)]. *)
Definition upsert (current_week : Z) (done_date note : string)
    (ms : DataFrame milestone) : DataFrame milestone :=
  let ms2 := ms in
  let ms2 := select (fun r => negb (week r =? current_week)) ms2 in
  concat ms2 (of_records milestones_columns [Milestone current_week done_date note]).

(** The handler of the button "Save deliverable status": the frame [ms] the
    run loaded, which no branch assigns to, the files and the notice. *)
Definition save_deliverable_status (done : bool) (current_week : Z)
    (log_date : PyDate.date) (done_note : string)
    (ms : DataFrame milestone) (fs : files)
  : DataFrame milestone * files * notice :=
  if done then
    let ms2 := upsert current_week (PyDate.isoformat log_date) done_note ms in
    (ms, save_milestones ms2 fs, MarkedDone)
  else (ms, fs, NoChanges).

Section Page.

Variable pd : pandas.
Variable T : Type.
Variable parse_timestamp : string -> option T.
(** How [to_csv] prints a cell of a parsed [timestamp] column. *)
Variable show_timestamp : option T -> string.
Variable strip : string -> string.

(** The handler of "Add log". *)
Definition add_log (w : widgets) (df : DataFrame (entry PyDate.date)) (fs : files)
  : option files :=
  let new := of_records progress_columns
               [Entry (DateObj (log_date w)) (Some (w_module w)) (w_minutes w)
                  (Some (w_note w))] in
  let df2 := concat (as_cells df) new in
  save_progress pd df2 fs.

(** The handler of "Quick add (planned today)". *)
Definition quick_add (pl : plan) (w : widgets) (df : DataFrame (entry PyDate.date))
    (fs : files) : option files :=
  let p := planned_minutes_per_day pl in
  let rows :=
    List.map (fun kv => Entry (DateObj (log_date w)) (Some kv.1) kv.2 (Some "planned"%string))
      (List.filter (fun kv => 0 <? kv.2) (map_to_list p)) in
  let df2 := concat (as_cells df) (of_records progress_columns rows) in
  save_progress pd df2 fs.

(** The handler of "Save reflection"; [now] is
    [dt.datetime.now().isoformat(timespec="seconds")]. *)
Definition save_reflection (today : PyDate.date) (now : string) (w : widgets)
    (rf : DataFrame (reflection (option T))) (fs : files) : files :=
  let new := of_records reflections_columns
               [Reflection now (PyDate.isoformat today) (w_topic w) (w_mood w)
                  (strip (w_text w)) (strip (w_tags w))] in
  let shown := Frame (columns rf)
                 (List.map (fun r => set_timestamp (show_timestamp (timestamp r)) r)
                    (rows rf)) in
  save_reflections (concat shown new) fs.

(** One run of the script: the files it leaves.  [None] when the run stops
    on an exception before the handler wrote anything. *)
Definition run (pl : plan) (today : PyDate.date) (now : string)
    (w : widgets) (b : button) (fs : files) : option files :=
  df ← load_progress pd fs;
  let ms := load_milestones fs in
  let rf := load_reflections T parse_timestamp fs in
  current_week ← week_index pl today;
  if decide (modules pl = ∅) then None   (* [module_names[0]] *)
  else
    match b with
    | NoButton => Some fs
    | AddLog => add_log w df fs
    | QuickAdd => quick_add pl w df fs
    | SaveDeliverableStatus =>
        Some (save_deliverable_status (deliverable_done w) current_week
                (log_date w) (deliverable_note w) ms fs).1.2
    | SaveReflection => Some (save_reflection today now w rf fs)
    end.

End Page.

End Handlers.

(* ===================================================================== *)
(** ** What the tabs compute before they draw *)
(* ===================================================================== *)

Module Views.
Import Frames Ledgers Engine.

(** [d.get(k, 0)] *)
Definition get0 (d : gmap string Z) (k : string) : Z := default 0 (d !! k).

(** The rows "Quick add (planned today)" builds:
    [[{"date": log_date, "module": m, "minutes": int(mins), "note": "planned"}]
    [ for m, mins in p.items() if mins > 0]]. *)
Definition quick_rows (pl : plan) (log_date : PyDate.date) : list (entry date_cell) :=
  List.map (fun kv => Entry (DateObj log_date) (Some kv.1) kv.2 (Some "planned"%string))
    (List.filter (fun kv => 0 <? kv.2) (map_to_list (planned_minutes_per_day pl))).

(** One row added to the daily sums, which are kept in date order; the
    sums are [int64]. *)
Fixpoint add_day (d : PyDate.date) (m : Z) (acc : list (PyDate.date * Z))
  : list (PyDate.date * Z) :=
  match acc with
  | [] => [(d, wrap64 m)]
  | (d', m') :: rest =>
      match PyDate.cmp d d' with
      | Lt => (d, wrap64 m) :: acc
      | Eq => (d', wrap64 (m' + m)) :: rest
      | Gt => (d', m') :: add_day d m rest
      end
  end.

(** Second tab:
    [tmp.groupby(tmp["date"].dt.date)["minutes"].sum().reset_index()]
    [.sort_values("date")]: one row per date that occurs, by ascending date,
    with the [int64] sum of the minutes logged on it. *)
Definition daily_totals (df : DataFrame (entry PyDate.date)) : list (PyDate.date * Z) :=
  fold_left (fun acc r => add_day (date r) (minutes r) acc) (rows df) [].

(** The order of the daily sums: by date. *)
Definition by_date (a b : PyDate.date * Z) : Prop := PyDate.ltb a.1 b.1 = true.

(** Second tab: [planned_per_day = sum(planned_day.values())]. *)
Definition planned_per_day (pl : plan) : Z :=
  py_sum (values (planned_minutes_per_day pl)).

(** First tab, [render_week_plan]: the rows of the table of daily tasks,
    [[{"Day": d, "Task": daily[d]} for d in order if d in daily]]. *)
Definition weekday_order : list string :=
  ["Mon"; "Tue"; "Wed"; "Thu"; "Fri"; "Sat"; "Sun"]%string.

Definition daily_task_rows (daily : gmap string string) : list (string * string) :=
  omap (fun d => match daily !! d with
                 | Some task => Some (d, task)
                 | None => None
                 end) weekday_order.

(** What the third tab writes for one feed. *)
Inductive radar_out : Type :=
| RssWarning (err : string)            (* [st.warning(f"RSS fetch failed: {err}")] *)
| RssLine (t l p : string).            (* [st.markdown] of a link, with the date [p] if any *)

(** Third tab, after [entries, err = fetch_rss(..)]: [if err:] a warning,
    [else] a line per entry with [t = e["title"] or "(no title)"],
    [l = e["link"] or url], [p = e["published"]].  The empty string is as
    false as [None]. *)
Definition render_rss (url : string) (res : list Feed.item * option string)
  : list radar_out :=
  match res.2 with
  | Some (String c err) => [RssWarning (String c err)]
  | _ =>
      List.map (fun e => RssLine (Feed.str_or (Feed.title e) "(no title)")
                           (Feed.str_or (Feed.link e) url) (Feed.published e))
        res.1
  end.

End Views.

(* ===================================================================== *)
(** ** Notions the statements use *)
(* ===================================================================== *)

Module Props.
Import Frames Ledgers Engine.

(** The rows of [df] that pass the date mask of [cumulative_actual]. *)
Definition kept (df : DataFrame (entry PyDate.date)) (s e : PyDate.date)
  : list (entry PyDate.date) :=
  List.filter (in_range s e) (rows df).

(** The rows logged against module [m]. *)
Definition of_module (m : string) (rs : list (entry PyDate.date))
  : list (entry PyDate.date) :=
  List.filter (fun r => bool_decide (module r = Some m)) rs.

(** The rows that have a module. *)
Definition with_module (rs : list (entry PyDate.date)) : list (entry PyDate.date) :=
  List.filter (fun r => bool_decide (is_Some (module r))) rs.

(** The numbers an [int64] holds. *)
Definition int64 (z : Z) : Prop := - 2 ^ 63 <= z < 2 ^ 63.

(** The inclusive day count of a range: the local [days] of
    [cumulative_planned]. *)
Definition day_count (s e : PyDate.date) : Z := PyDate.sub_days e s + 1.


(** The weeks a milestone table marks as done. *)
Definition done_weeks (ms : DataFrame milestone) : list Z := week <$> rows ms.

(** The entry set of the worked example. *)
Definition example_entries : DataFrame (entry PyDate.date) :=
  Frame progress_columns
    [Entry (PyDate.Date 2024 1 1 I) (Some "stats") 30 (Some "");
     Entry (PyDate.Date 2024 1 2 I) (Some "stats") 20 (Some "");
     Entry (PyDate.Date 2024 1 1 I) (Some "algo") 10 (Some "")]%string.

(** A plan with two modules that starts on 2024-01-01. *)
Definition example_plan : plan :=
  Plan "2024-01-01"
    {[ "stats"%string := ModuleMeta 30; "algo"%string := ModuleMeta 45 ]}.

(** A frame with a module named "total" and one other module. *)
Definition total_module_entries : DataFrame (entry PyDate.date) :=
  Frame progress_columns
    [Entry (PyDate.Date 2024 1 1 I) (Some "total") 5 (Some "");
     Entry (PyDate.Date 2024 1 1 I) (Some "algo") 3 (Some "")]%string.

(** Two rows of one day whose minutes add up to [2 ^ 63]. *)
Definition overflow_entries : DataFrame (entry PyDate.date) :=
  Frame progress_columns
    [Entry (PyDate.Date 2024 1 1 I) (Some "stats") (2 ^ 63 - 1) (Some "");
     Entry (PyDate.Date 2024 1 1 I) (Some "algo") 1 (Some "")]%string.

(** Two rows of one day, the first without a module. *)
Definition missing_module_entries : DataFrame (entry PyDate.date) :=
  Frame progress_columns
    [Entry (PyDate.Date 2024 1 1 I) None 5 (Some "");
     Entry (PyDate.Date 2024 1 1 I) (Some "algo") 3 (Some "")]%string.

(** The reading of the claim on [cumulative_actual]: the key ["total"]
    holds the sum of the minutes of the kept rows. *)
Definition total_is_grand_sum (df : DataFrame (entry PyDate.date))
    (s e : PyDate.date) : Prop :=
  cumulative_actual df s e !! "total"%string = Some (py_sum (minutes <$> kept df s e)).

(** The reading of the claim on the key ["total"]: it holds the sum of the
    values at the other keys. *)
Definition total_is_sum_of_modules (df : DataFrame (entry PyDate.date))
    (s e : PyDate.date) : Prop :=
  cumulative_actual df s e !! "total"%string =
  Some (py_sum (values (delete "total"%string (cumulative_actual df s e)))).


(** The timestamps of nanosecond resolution: 1677-09-21 00:12:44 to
    2262-04-11 23:47:16. *)
Definition ns_bounds (d : PyDate.date) (secs : Z) : bool :=
  (PyDate.ltb (PyDate.Date 1677 9 21 I) d
   || PyDate.eqb d (PyDate.Date 1677 9 21 I) && (764 <=? secs))
  && (PyDate.ltb d (PyDate.Date 2262 4 11 I)
      || PyDate.eqb d (PyDate.Date 2262 4 11 I) && (secs <=? 85636)).

(** A reader of the text [YYYY-MM-DD HH:MM:SS], that second of that day. *)
Definition stamp_text (s : string) : option (PyDate.date * Z) :=
  d ← PyDate.fromisoformat (String.substring 0 10 s);
  match String.substring 10 (String.length s) s with
  | String sp (String h1 (String h2 (String c1 (String m1 (String m2
      (String c2 (String s1 (String s2 EmptyString)))))))) =>
      if negb (Ascii.eqb sp " " && Ascii.eqb c1 ":" && Ascii.eqb c2 ":") then None else
      a ← PyDate.digit_val h1; b ← PyDate.digit_val h2;
      c ← PyDate.digit_val m1; e ← PyDate.digit_val m2;
      f ← PyDate.digit_val s1; g ← PyDate.digit_val s2;
      let hh := 10 * a + b in
      let mm := 10 * c + e in
      let ss := 10 * f + g in
      if (hh <? 24) && (mm <? 60) && (ss <? 60)
      then Some (d, 3600 * hh + 60 * mm + ss) else None
  | _ => None
  end.

(** The texts [pd.read_csv] takes for a missing value by default. *)
Definition default_na (s : string) : bool :=
  existsb (String.eqb s)
    [""; "#N/A"; "#N/A N/A"; "#NA"; "-1.#IND"; "-1.#QNAN"; "-NaN"; "-nan";
     "1.#IND"; "1.#QNAN"; "<NA>"; "N/A"; "NA"; "NULL"; "NaN"; "None"; "n/a";
     "nan"; "null"]%string.

(** A reader of text columns, as [pd.read_csv] reads a column that holds a
    text that is no number and so stays text: a missing value, the empty
    text and the spellings of [default_na] come back missing, every other
    text comes back as it is. *)
Definition read_cell (col : list (option string)) (c : option string) : option string :=
  s ← c; if default_na s then None else Some s.

(** A reader of one string: [YYYY-MM-DD], or [YYYY-MM-DD HH:MM:SS]. *)
Definition any_text (s : string) : option (PyDate.date * Z) :=
  match PyDate.fromisoformat s with
  | Some d => Some (d, 0)
  | None => stamp_text s
  end.

(** A reader of the strings of a column: by the form of the first cell when
    that is a string, one by one otherwise. *)
Definition column_text (col : list date_cell) (s : string)
  : option (PyDate.date * Z) :=
  match col with
  | Text s0 :: _ =>
      if Nat.eqb (String.length s0) (String.length s) then any_text s else None
  | _ => any_text s
  end.

(** pandas with nanosecond timestamps. *)
Definition ns_pandas : pandas := Pandas ns_bounds column_text read_cell.

(** The reading of the last part of the claim on [cumulative_planned]: a
    range whose end precedes its start has a negative day count. *)
Definition reversed_range_is_negative (s e : PyDate.date) : Prop :=
  PyDate.ltb e s = true -> day_count s e < 0.

End Props.

Module PageProps.
Import Frames Ledgers Engine Handlers.

(** The widgets of a run with the completion box unchecked. *)
Definition example_widgets : widgets :=
  Widgets (PyDate.Date 2024 1 10 I) "stats" 30 "" false "later" "paper" "ok" "" "".

(** Files with one milestone, for week 1. *)
Definition example_files : files :=
  Files None (Some (Frame milestones_columns [Milestone 1 "2024-01-05" "done"])) None.

(** Files with two logs, the first without a note, and one milestone. *)
Definition logged_files : files :=
  Files (Some (Frame progress_columns
                 [Entry "2024-01-08" (Some "stats") 25 None;
                  Entry "2024-01-09" (Some "algo") 40 (Some "chapter 3")]%string))
        (Some (Frame milestones_columns [Milestone 1 "2024-01-05" "done"])) None.

End PageProps.

Module FeedProps.
Import Feed.

(** The claim on a failed fetch as the specification words it: an empty
    sequence with an error string that is not empty. *)
Definition failure_has_message (response : Type)
    (requests_get : string -> Z -> outcome response)
    (raise_for_status : response -> outcome unit)
    (response_text : response -> string)
    (feedparser_parse : string -> outcome (list feed_entry))
    (strip : string -> string) (url : string) (max_items timeout : Z) : Prop :=
  forall ex,
    fetch_body response requests_get raise_for_status response_text
      feedparser_parse strip url max_items timeout = Raise ex ->
    exists msg,
      fetch_rss response requests_get raise_for_status response_text
        feedparser_parse strip url max_items timeout = ([], Some msg) /\
      msg <> ""%string.

(** A network on which every request raises an exception [ex]. *)
Definition failing_get (ex : exn) : string -> Z -> outcome unit :=
  fun _ _ => Raise ex.

(** A network that answers every request. *)
Definition answering_get : string -> Z -> outcome unit := fun _ _ => Return tt.

(** A parser that finds the entries [es]. *)
Definition parse_to (es : list feed_entry) : string -> outcome (list feed_entry) :=
  fun _ => Return es.

(** A feed of three entries, with attributes missing. *)
Definition example_feed : list feed_entry :=
  [FeedEntry (Some "A") (Some "http://a") (Some "Mon") None;
   FeedEntry None (Some "http://b") None (Some "Tue");
   FeedEntry (Some "C") None None None]%string.
End FeedProps.

(* ===================================================================== *)
(** ** Notions of the ledgers and of a session *)
(* ===================================================================== *)

Module LedgerProps.
Import Frames Ledgers.

(** The rows of the progress file; an absent file has none. *)
Definition progress_rows (fs : files) : list (entry string) :=
  match progress_csv fs with
  | Some t => rows t
  | None => []
  end.

(** The rows of the reflection file; an absent file has none. *)
Definition reflection_rows (fs : files) : list (reflection string) :=
  match reflections_csv fs with
  | Some t => rows t
  | None => []
  end.

(** A row whose date is written the way [save_progress] writes dates, and
    lies in the range of pandas timestamps. *)
Definition canonical_row (pd : pandas) (r : entry string) : Prop :=
  exists d, date r = PyDate.isoformat d /\ representable pd d 0 = true.

Definition canonical_progress (pd : pandas) (fs : files) : Prop :=
  Forall (canonical_row pd) (progress_rows fs).

(** A row with its date as the file spells it. *)
Definition written (r : entry PyDate.date) : entry string :=
  set_date (PyDate.isoformat (date r)) r.

(** The row of the progress file for a row [r] of a table whose text columns
    are [mods] and [notes]: the ISO date, the minutes, and the text cells as
    they read back. *)
Definition written_as (pd : pandas) (mods notes : list (option string))
    (r : entry PyDate.date) : entry string :=
  Entry (PyDate.isoformat (date r)) (read_back pd mods (module r)) (minutes r)
    (read_back pd notes (note r)).

(** The rows of the progress file for a table of rows [xs]. *)
Definition written_rows (pd : pandas) (xs : list (entry PyDate.date))
  : list (entry string) :=
  written_as pd (module <$> xs) (note <$> xs) <$> xs.

(** A column as it reads back. *)
Definition read_back_column (pd : pandas) (col : list (option string))
  : list (option string) :=
  read_back pd col <$> col.

(** The labels of the three ledgers as a run finds them. *)
Definition schema_ok (fs : files) : Prop :=
  match progress_csv fs with Some t => columns t = progress_columns | None => True end /\
  match milestones_csv fs with Some t => columns t = milestones_columns | None => True end /\
  match reflections_csv fs with Some t => columns t = reflections_columns | None => True end.

End LedgerProps.

Module Session.
Import Frames Ledgers Engine Handlers.

(** One user action: the day and the instant of the run, the widget values
    and the button pressed. *)
Record action : Type := Action {
  a_today : PyDate.date;
  a_now : string;
  a_widgets : widgets;
  a_button : button
}.

Section Runs.
Variable pd : pandas.
Variable T : Type.
Variable parse_timestamp : string -> option T.
Variable show_timestamp : option T -> string.
Variable strip : string -> string.

(** A session: the script runs once per action, each run on the files the
    one before left.  [None] when a run stops on an exception. *)
Fixpoint runs (pl : Engine.plan) (acts : list action) (fs : files) : option files :=
  match acts with
  | [] => Some fs
  | a :: rest =>
      fs' ← run pd T parse_timestamp show_timestamp strip
              pl (a_today a) (a_now a) (a_widgets a) (a_button a) fs;
      runs pl rest fs'
  end.

End Runs.

(** A fresh install: no ledger file yet. *)
Definition no_files : files := Files None None None.

(** A short session: a log, a quick add, a deliverable marked done twice and
    a reflection. *)
Definition example_session : list action :=
  let w := Widgets (PyDate.Date 2024 1 10 I) "stats" 30 "" true "shipped"
             "paper" "ok" "" " read two papers " in
  [Action (PyDate.Date 2024 1 10 I) "2024-01-10T09:00:00" w AddLog;
   Action (PyDate.Date 2024 1 10 I) "2024-01-10T09:01:00" w QuickAdd;
   Action (PyDate.Date 2024 1 10 I) "2024-01-10T09:02:00" w SaveDeliverableStatus;
   Action (PyDate.Date 2024 1 11 I) "2024-01-11T09:00:00" w SaveDeliverableStatus;
   Action (PyDate.Date 2024 1 11 I) "2024-01-11T09:05:00" w SaveReflection]%string.

End Session.

(* ===================================================================== *)
(** ** Facts about dates *)
(* ===================================================================== *)

Module PyDateFacts.
Import PyDate.

Lemma date_eq (a b : date) :
  year a = year b -> month a = month b -> day a = day b -> a = b.
Proof.
  destruct a as [y m d H], b as [y' m' d' H']; simpl.
  intros -> -> ->. f_equal. apply proof_irrel.
Qed.

Lemma check_date_fields_spec y m d :
  Is_true (check_date_fields y m d) <->
  1 <= y <= 9999 /\ 1 <= m <= 12 /\ 1 <= d <= days_in_month y m.
Proof.
  unfold check_date_fields, MINYEAR, MAXYEAR.
  rewrite !andb_True, !Is_true_true, !Z.leb_le. lia.
Qed.

Lemma date_fields (a : date) :
  1 <= year a <= 9999 /\ 1 <= month a <= 12 /\
  1 <= day a <= days_in_month (year a) (month a).
Proof. apply check_date_fields_spec, date_ok. Qed.

(** The leap day is what the three floor terms of [days_before_year] gain
    when the year goes by. *)
Lemma is_leap_floor y :
  (if is_leap y then 1 else 0) =
  (y / 4 - (y - 1) / 4) - (y / 100 - (y - 1) / 100) + (y / 400 - (y - 1) / 400).
Proof.
  unfold is_leap.
  destruct (Z.eqb_spec (y mod 4) 0), (Z.eqb_spec (y mod 100) 0),
    (Z.eqb_spec (y mod 400) 0); simpl; Z.div_mod_to_equations; lia.
Qed.

Lemma days_before_year_succ y :
  days_before_year (y + 1) = days_before_year y + 365 + (if is_leap y then 1 else 0).
Proof.
  rewrite is_leap_floor. unfold days_before_year.
  replace (y + 1 - 1) with y by lia. lia.
Qed.

Lemma days_before_year_mono y y' :
  y <= y' -> days_before_year y <= days_before_year y'.
Proof. unfold days_before_year. intros. Z.div_mod_to_equations. lia. Qed.

Ltac month_cases m :=
  let H := fresh in
  assert (H : m = 1 \/ m = 2 \/ m = 3 \/ m = 4 \/ m = 5 \/ m = 6 \/
              m = 7 \/ m = 8 \/ m = 9 \/ m = 10 \/ m = 11 \/ m = 12) by lia;
  repeat (destruct H as [H | H]); subst m.

Lemma days_in_month_le y m : 1 <= m <= 12 -> days_in_month y m <= 31.
Proof.
  intros Hm. unfold days_in_month.
  month_cases m; destruct (is_leap y); simpl; lia.
Qed.

Lemma day_of_year_bounds y m d :
  1 <= m <= 12 -> 1 <= d <= days_in_month y m ->
  1 <= days_before_month y m + d <= 365 + (if is_leap y then 1 else 0).
Proof.
  intros Hm Hd. unfold days_before_month, days_in_month in *.
  month_cases m; destruct (is_leap y); simpl in *; lia.
Qed.

Lemma days_before_month_mono y m m' d :
  1 <= m -> m < m' -> m' <= 12 -> d <= days_in_month y m ->
  days_before_month y m + d <= days_before_month y m'.
Proof.
  intros H1 H2 H3 Hd. unfold days_before_month, days_in_month in *.
  month_cases m; destruct (is_leap y); simpl in *;
    month_cases m'; simpl; lia.
Qed.

(** Comparing two dates field by field is comparing their ordinals. *)
Lemma cmp_toordinal (a b : date) : cmp a b = (toordinal a ?= toordinal b).
Proof.
  pose proof (date_fields a) as (Ha1 & Ha2 & Ha3).
  pose proof (date_fields b) as (Hb1 & Hb2 & Hb3).
  pose proof (day_of_year_bounds _ _ _ Ha2 Ha3) as Da.
  pose proof (day_of_year_bounds _ _ _ Hb2 Hb3) as Db.
  unfold cmp, toordinal, ymd2ord. symmetry.
  destruct (Z.compare_spec (year a) (year b)) as [Hy | Hy | Hy].
  - rewrite Hy in *.
    destruct (Z.compare_spec (month a) (month b)) as [Hm | Hm | Hm].
    + rewrite Hm. destruct (Z.compare_spec (day a) (day b));
        [apply Z.compare_eq_iff | apply Z.compare_lt_iff | apply Z.compare_gt_iff]; lia.
    + apply Z.compare_lt_iff.
      pose proof (days_before_month_mono (year b) (month a) (month b) (day a)). lia.
    + apply Z.compare_gt_iff.
      pose proof (days_before_month_mono (year b) (month b) (month a) (day b)). lia.
  - apply Z.compare_lt_iff.
    pose proof (days_before_year_succ (year a)).
    pose proof (days_before_year_mono (year a + 1) (year b)). lia.
  - apply Z.compare_gt_iff.
    pose proof (days_before_year_succ (year b)).
    pose proof (days_before_year_mono (year b + 1) (year a)). lia.
Qed.

Lemma ltb_toordinal a b : ltb a b = true <-> toordinal a < toordinal b.
Proof.
  unfold ltb. rewrite cmp_toordinal.
  destruct (Z.compare_spec (toordinal a) (toordinal b)); split; (lia || discriminate || auto).
Qed.

Lemma leb_toordinal a b : leb a b = true <-> toordinal a <= toordinal b.
Proof.
  unfold leb. rewrite cmp_toordinal.
  destruct (Z.compare_spec (toordinal a) (toordinal b)); split; (lia || discriminate || auto).
Qed.

Lemma geb_toordinal a b : geb a b = true <-> toordinal b <= toordinal a.
Proof. apply leb_toordinal. Qed.

Lemma toordinal_inj a b : toordinal a = toordinal b -> a = b.
Proof.
  intros H. apply Z.compare_eq_iff in H. rewrite <- cmp_toordinal in H.
  unfold cmp in H.
  destruct (Z.compare_spec (year a) (year b)); try discriminate.
  destruct (Z.compare_spec (month a) (month b)); try discriminate.
  apply Z.compare_eq_iff in H. by apply date_eq.
Qed.

(** The ordinals agree with CPython's on sample dates. *)
Example toordinal_samples :
  toordinal (Date 1 1 1 I) = 1 /\
  toordinal (Date 1900 3 1 I) = 693655 /\
  toordinal (Date 2000 2 29 I) = 730179 /\
  toordinal (Date 2024 1 1 I) = 738886 /\
  toordinal (Date 9999 12 31 I) = 3652059.
Proof. repeat split; reflexivity. Qed.

(** *** Text form *)

Example isoformat_pads : isoformat (Date 5 1 2 I) = "0005-01-02"%string.
Proof. reflexivity. Qed.

Example fromisoformat_rejects_bad_day : fromisoformat "1900-02-29" = None.
Proof. reflexivity. Qed.

Lemma digit_val_char n : 0 <= n <= 9 -> digit_val (digit_char n) = Some n.
Proof.
  intros H. rewrite <- (Z2Nat.id n) by lia.
  assert (Z.to_nat n < 10)%nat as Hk by lia.
  generalize dependent (Z.to_nat n). clear H. intros k Hk.
  do 10 (destruct k as [|k]; [reflexivity|]). lia.
Qed.

Lemma mk_date_fields (d : date) : mk_date (year d) (month d) (day d) = Some d.
Proof.
  unfold mk_date. destruct (Is_true_dec _) as [H | H].
  - f_equal. apply date_eq; reflexivity.
  - destruct H. apply date_ok.
Qed.

Lemma append_cons c (s t : string) : (String c s +:+ t = String c (s +:+ t))%string.
Proof. reflexivity. Qed.

Lemma append_nil (t : string) : ("" +:+ t = t)%string.
Proof. reflexivity. Qed.

(** Reading back what [isoformat] wrote gives the date it was written from. *)
Lemma fromisoformat_isoformat (d : date) : fromisoformat (isoformat d) = Some d.
Proof.
  pose proof (date_fields d) as (Hy & Hm & Hd).
  pose proof (days_in_month_le (year d) _ Hm) as Hd'.
  unfold isoformat, fmt04, fmt02.
  repeat (rewrite append_cons || rewrite append_nil). cbn [fromisoformat].
  change (Ascii.eqb "-" "-") with true. cbn [andb negb].
  rewrite !digit_val_char by (Z.div_mod_to_equations; lia).
  cbn [mbind option_bind].
  rewrite <- (mk_date_fields d). f_equal; Z.div_mod_to_equations; lia.
Qed.

End PyDateFacts.

(* ===================================================================== *)
(** ** Facts about sums and dictionaries *)
(* ===================================================================== *)

Module SumFacts.
Import Engine Props.

Lemma fold_add_shift xs a : fold_left Z.add xs a = a + py_sum xs.
Proof.
  unfold py_sum. revert a. induction xs as [|x xs IH]; intros a; simpl; [lia|].
  rewrite (IH (a + x)), (IH (0 + x)). lia.
Qed.

Lemma py_sum_nil : py_sum [] = 0.
Proof. reflexivity. Qed.

Lemma py_sum_cons x xs : py_sum (x :: xs) = x + py_sum xs.
Proof. unfold py_sum at 1. simpl. apply fold_add_shift. Qed.

Lemma py_sum_app xs ys : py_sum (xs ++ ys) = py_sum xs + py_sum ys.
Proof.
  induction xs as [|x xs IH]; simpl; [rewrite py_sum_nil; lia|].
  rewrite !py_sum_cons, IH. lia.
Qed.

Lemma py_sum_perm xs ys : xs ≡ₚ ys -> py_sum xs = py_sum ys.
Proof.
  induction 1 as [|x l l' _ IH|x y l|l l' l'' _ IH1 _ IH2];
    rewrite ?py_sum_cons; lia.
Qed.

Lemma py_sum_scale k xs : py_sum ((fun v => v * k) <$> xs) = py_sum xs * k.
Proof.
  induction xs as [|x xs IH]; [reflexivity|].
  rewrite fmap_cons, !py_sum_cons, IH. lia.
Qed.

Lemma values_empty : values ∅ = [].
Proof. unfold values. by rewrite map_to_list_empty. Qed.

Lemma values_insert_fresh (d : gmap string Z) k v :
  d !! k = None -> py_sum (values (<[k:=v]> d)) = v + py_sum (values d).
Proof.
  intros H. unfold values.
  rewrite (py_sum_perm _ (v :: (map_to_list d).*2)); [apply py_sum_cons|].
  by rewrite map_to_list_insert.
Qed.

Lemma values_delete (d : gmap string Z) k :
  py_sum (values (delete k d)) = py_sum (values d) - default 0 (d !! k).
Proof.
  destruct (d !! k) as [v|] eqn:E; simpl.
  - rewrite <- (insert_delete_id d k v E) at 2.
    rewrite values_insert_fresh by apply lookup_delete_eq. lia.
  - rewrite delete_id by done. lia.
Qed.

(** Assigning to a key replaces what the key held in the sum of the values. *)
Lemma values_insert (d : gmap string Z) k v :
  py_sum (values (<[k:=v]> d)) = py_sum (values d) - default 0 (d !! k) + v.
Proof.
  rewrite <- insert_delete_eq, values_insert_fresh by apply lookup_delete_eq.
  rewrite values_delete. lia.
Qed.

Lemma values_fmap (f : Z -> Z) (d : gmap string Z) : values (f <$> d) = f <$> values d.
Proof.
  unfold values. rewrite map_to_list_fmap, <- !list_fmap_compose.
  apply list_fmap_ext. by intros ? [].
Qed.

(** *** Sums in [int64] *)

Lemma wrap64_int64 z : int64 (wrap64 z).
Proof. unfold int64, wrap64. Z.div_mod_to_equations. lia. Qed.

Lemma wrap64_id z : int64 z -> wrap64 z = z.
Proof. unfold int64, wrap64. intros H. Z.div_mod_to_equations. lia. Qed.

Lemma wrap64_eq a b : wrap64 a = wrap64 b <-> exists k, a = b + 2 ^ 64 * k.
Proof.
  unfold wrap64. split.
  - intros H. exists ((a + 2 ^ 63) / 2 ^ 64 - (b + 2 ^ 63) / 2 ^ 64).
    Z.div_mod_to_equations. lia.
  - intros [k ->]. f_equal.
    replace (b + 2 ^ 64 * k + 2 ^ 63) with (b + 2 ^ 63 + k * 2 ^ 64) by lia.
    apply Z_mod_plus_full.
Qed.

Lemma wrap64_self z : exists k, wrap64 z = z + 2 ^ 64 * k.
Proof.
  exists (- ((z + 2 ^ 63) / 2 ^ 64)). unfold wrap64. Z.div_mod_to_equations. lia.
Qed.

Lemma wrap64_add_l a b : wrap64 (wrap64 a + b) = wrap64 (a + b).
Proof.
  apply wrap64_eq. destruct (wrap64_self a) as [k ->]. exists k. lia.
Qed.

Lemma wrap64_add_r a b : wrap64 (a + wrap64 b) = wrap64 (a + b).
Proof. rewrite Z.add_comm, wrap64_add_l. f_equal. lia. Qed.

Lemma np_fold_shift xs a :
  fold_left (fun a x => wrap64 (a + x)) xs (wrap64 a) = wrap64 (a + py_sum xs).
Proof.
  revert a. induction xs as [|x xs IH]; intros a.
  - simpl. rewrite py_sum_nil. f_equal. lia.
  - cbn [fold_left]. rewrite wrap64_add_l, IH, py_sum_cons. f_equal. lia.
Qed.

(** An [int64] sum is the exact sum, wrapped. *)
Lemma np_sum_wrap xs : np_sum xs = wrap64 (py_sum xs).
Proof.
  unfold np_sum. change 0 with (wrap64 0) at 1. rewrite np_fold_shift. f_equal.
Qed.

End SumFacts.

(* ===================================================================== *)
(** ** The reconciliation functions meet their specification *)
(* ===================================================================== *)

Module EngineFacts.
Import Frames Ledgers Engine Props SumFacts.

(** *** The grouped sum *)

Lemma groupby_fold_lookup (sub : list (entry PyDate.date)) (acc : gmap string Z) m :
  fold_left group_step sub acc !! m =
  match of_module m sub with
  | [] => acc !! m
  | rs => Some (wrap64 (default 0 (acc !! m) + py_sum (minutes <$> rs)))
  end.
Proof.
  revert acc. induction sub as [|r sub IH]; intros acc; [reflexivity|].
  cbn [fold_left]. rewrite IH. unfold of_module. cbn [List.filter].
  unfold group_step at 1 2.
  destruct (module r) as [m'|] eqn:Hm.
  - destruct (decide (m' = m)) as [-> | Hne].
    + rewrite bool_decide_eq_true_2 by done.
      rewrite lookup_insert_eq. cbn [from_option id].
      destruct (List.filter _ sub) as [|r' rs'].
      * rewrite fmap_cons, py_sum_cons, fmap_nil, py_sum_nil.
        do 2 f_equal. lia.
      * rewrite (fmap_cons _ r (r' :: rs')), (py_sum_cons (minutes r)).
        cbn [from_option id]. rewrite wrap64_add_l. do 2 f_equal. lia.
    + rewrite bool_decide_eq_false_2 by congruence.
      rewrite lookup_insert_ne by done. reflexivity.
  - rewrite bool_decide_eq_false_2 by done. reflexivity.
Qed.

(** A module has a key when one of its rows is there, and the key holds the
    [int64] sum of the minutes of those rows. *)
Lemma groupby_lookup (sub : list (entry PyDate.date)) m :
  groupby_module_sum sub !! m =
  match of_module m sub with
  | [] => None
  | rs => Some (wrap64 (py_sum (minutes <$> rs)))
  end.
Proof.
  unfold groupby_module_sum.
  rewrite groupby_fold_lookup, lookup_empty. by destruct (of_module m sub).
Qed.

Lemma groupby_fold_values (sub : list (entry PyDate.date)) (acc : gmap string Z) :
  wrap64 (py_sum (values (fold_left group_step sub acc))) =
  wrap64 (py_sum (values acc) + py_sum (minutes <$> with_module sub)).
Proof.
  revert acc. induction sub as [|r sub IH]; intros acc.
  - cbn [fold_left with_module List.filter]. rewrite fmap_nil, py_sum_nil.
    f_equal. lia.
  - cbn [fold_left]. rewrite IH. unfold group_step, with_module.
    cbn [List.filter]. destruct (module r) as [m|].
    + rewrite bool_decide_eq_true_2 by eauto.
      rewrite values_insert, fmap_cons, py_sum_cons.
      apply wrap64_eq.
      destruct (wrap64_self (default 0 (acc !! m) + minutes r)) as [k ->].
      exists k. lia.
    + rewrite bool_decide_eq_false_2; [done|]. by intros [? ?].
Qed.

(** The per-module sums add up to the sum over the rows that have a module,
    modulo [2 ^ 64]. *)
Lemma groupby_values (sub : list (entry PyDate.date)) :
  wrap64 (py_sum (values (groupby_module_sum sub))) =
  wrap64 (py_sum (minutes <$> with_module sub)).
Proof.
  unfold groupby_module_sum.
  rewrite groupby_fold_values, values_empty, py_sum_nil. f_equal.
Qed.

(** Both branches of [cumulative_actual] build the same dictionary. *)
Lemma cumulative_actual_unfold df s e :
  cumulative_actual df s e =
  <["total"%string := wrap64 (py_sum (minutes <$> kept df s e))]>
    (groupby_module_sum (kept df s e)).
Proof.
  unfold cumulative_actual, kept, len. cbn [select rows]. rewrite np_sum_wrap.
  destruct (rows df) as [|r rs] eqn:E.
  - reflexivity.
  - rewrite <- E. destruct (Z.eqb_spec (Z.of_nat (length (rows df))) 0) as [H0|_].
    { rewrite E in H0. simpl in H0. lia. }
    destruct (List.filter _ (rows df)) as [|r' rs']; reflexivity.
Qed.

Lemma in_range_spec s e (r : entry PyDate.date) :
  in_range s e r = true <->
  PyDate.toordinal s <= PyDate.toordinal (date r) <= PyDate.toordinal e.
Proof.
  unfold in_range. rewrite andb_true_iff.
  rewrite PyDateFacts.geb_toordinal, PyDateFacts.leb_toordinal. lia.
Qed.

Lemma no_total_of_module (rs : list (entry PyDate.date)) :
  (forall r, r ∈ rs -> module r <> Some "total"%string) ->
  of_module "total" rs = [].
Proof.
  intros H. unfold of_module. induction rs as [|r rs IH]; [reflexivity|].
  cbn [List.filter]. rewrite bool_decide_eq_false_2 by (apply H; left).
  apply IH. intros r' Hr'. apply H. by right.
Qed.

Lemma some_total_of_module (rs : list (entry PyDate.date)) r :
  r ∈ rs -> module r = Some "total"%string -> of_module "total" rs <> [].
Proof.
  intros Hin Hm Hnil.
  assert (r ∈ of_module "total" rs) as Hr.
  { unfold of_module. apply list_elem_of_In, filter_In. split.
    - by apply list_elem_of_In.
    - by apply bool_decide_eq_true_2. }
  rewrite Hnil in Hr. by apply elem_of_nil in Hr.
Qed.

Lemma with_module_all (rs : list (entry PyDate.date)) :
  (forall r, r ∈ rs -> is_Some (module r)) -> with_module rs = rs.
Proof.
  intros H. unfold with_module. induction rs as [|r rs IH]; [reflexivity|].
  cbn [List.filter]. rewrite bool_decide_eq_true_2 by (apply H; left).
  f_equal. apply IH. intros r' Hr'. apply H. by right.
Qed.

End EngineFacts.

(* ===================================================================== *)
(** ** Claims on the reconciliation functions *)
(* ===================================================================== *)

Module EngineClaims.
Import Frames Ledgers Engine Props SumFacts EngineFacts.

(** C1. [week_index] is [0] before the start date [s] of the plan and
    [floor((today - s).days / 7) + 1] from [s] on: [1] on [s] and the six
    days after it, [2] on the next seven days, [k + 1] on days [7k] to
    [7k + 6] after [s]. *)
Theorem week_index_spec (pl : plan) (s today : PyDate.date) :
  PyDate.fromisoformat (start_date pl) = Some s ->
  (PyDate.ltb today s = true -> week_index pl today = Some 0) /\
  (PyDate.geb today s = true ->
     week_index pl today = Some (PyDate.sub_days today s / 7 + 1)) /\
  (forall k, 0 <= k ->
     7 * k <= PyDate.sub_days today s <= 7 * k + 6 ->
     week_index pl today = Some (k + 1)).
Proof.
  intros Hs. unfold week_index. rewrite Hs. cbn [mbind option_bind].
  rewrite PyDateFacts.ltb_toordinal, PyDateFacts.geb_toordinal.
  unfold PyDate.sub_days.
  destruct (Z.ltb_spec (PyDate.toordinal today - PyDate.toordinal s) 0) as [Hlt | Hge].
  - repeat split; intros; try lia. 
  - repeat split; intros; try lia; try reflexivity.
    f_equal. Z.div_mod_to_equations. lia.
Qed.

Lemma week_index_spec_witness :
  PyDate.fromisoformat (start_date example_plan) = Some (PyDate.Date 2024 1 1 I) /\
  week_index example_plan (PyDate.Date 2024 1 10 I) = Some 2.
Proof.
  split; [reflexivity|].
  destruct (week_index_spec example_plan (PyDate.Date 2024 1 1 I)
              (PyDate.Date 2024 1 10 I) eq_refl) as (_ & _ & H).
  apply (H 1); [lia | vm_compute; split; discriminate].
Defined.

(** C2 as stated fails: the sums are [int64] sums.  Two rows of one day
    with [2 ^ 63 - 1] and [1] minutes have the grand sum [2 ^ 63], and the
    key ["total"] holds [- 2 ^ 63].  A row without a module is kept and
    counted in the total, but belongs to no group.  The grouped sum of a
    module named "total" is not in the result. *)
Lemma cumulative_actual_overflow :
  kept overflow_entries (PyDate.Date 2024 1 1 I) (PyDate.Date 2024 1 1 I) =
    rows overflow_entries /\
  py_sum (minutes <$> kept overflow_entries (PyDate.Date 2024 1 1 I)
                        (PyDate.Date 2024 1 1 I)) = 2 ^ 63 /\
  cumulative_actual overflow_entries (PyDate.Date 2024 1 1 I) (PyDate.Date 2024 1 1 I) =
    {[ "stats" := 2 ^ 63 - 1; "algo" := 1; "total" := - 2 ^ 63 ]}%string /\
  ~ total_is_grand_sum overflow_entries (PyDate.Date 2024 1 1 I) (PyDate.Date 2024 1 1 I) /\
  kept missing_module_entries (PyDate.Date 2024 1 1 I) (PyDate.Date 2024 1 1 I) =
    rows missing_module_entries /\
  cumulative_actual missing_module_entries (PyDate.Date 2024 1 1 I)
      (PyDate.Date 2024 1 1 I) = {[ "algo" := 3; "total" := 8 ]}%string /\
  py_sum (minutes <$> of_module "total"
            (kept total_module_entries (PyDate.Date 2024 1 1 I) (PyDate.Date 2024 1 1 I)))
    = 5 /\
  cumulative_actual total_module_entries (PyDate.Date 2024 1 1 I) (PyDate.Date 2024 1 1 I)
    = {[ "algo" := 3; "total" := 8 ]}%string.
Proof.
  split; [reflexivity|]. split; [reflexivity|]. split; [by vm_compute|].
  split; [|split; [reflexivity|split; [by vm_compute|split; by vm_compute]]].
  unfold total_is_grand_sum. vm_compute. discriminate.
Qed.

(** C2, amended. [cumulative_actual] keeps the rows dated within
    [start_date] and [end_date], both included, and groups those that have a
    module by module: a module with a kept row gets a key that holds the
    [int64] sum of the minutes of its kept rows, and a row without a module
    is in no group.  The result is these grouped sums with the key ["total"]
    set to the [int64] sum of the minutes of all kept rows, which replaces
    the grouped sum of a module named "total".  An [int64] sum is the exact
    sum whenever the exact sum is within the range of [int64].  On the
    worked example the result is [{"stats": 50, "algo": 10, "total": 60}]. *)
Theorem cumulative_actual_spec (df : DataFrame (entry PyDate.date)) (s e : PyDate.date) :
  (forall r, r ∈ kept df s e <->
     r ∈ rows df /\
     PyDate.toordinal s <= PyDate.toordinal (date r) <= PyDate.toordinal e) /\
  (forall m,
     groupby_module_sum (kept df s e) !! m =
     match of_module m (kept df s e) with
     | [] => None
     | rs => Some (wrap64 (py_sum (minutes <$> rs)))
     end) /\
  (forall m r, r ∈ of_module m (kept df s e) <-> r ∈ kept df s e /\ module r = Some m) /\
  cumulative_actual df s e =
    <["total"%string := wrap64 (py_sum (minutes <$> kept df s e))]>
      (groupby_module_sum (kept df s e)) /\
  (forall m,
     cumulative_actual df s e !! m =
     if decide (m = "total"%string) then Some (wrap64 (py_sum (minutes <$> kept df s e)))
     else match of_module m (kept df s e) with
          | [] => None
          | rs => Some (wrap64 (py_sum (minutes <$> rs)))
          end) /\
  (int64 (py_sum (minutes <$> kept df s e)) ->
   cumulative_actual df s e !! "total"%string = Some (py_sum (minutes <$> kept df s e))) /\
  (forall m, m <> "total"%string -> of_module m (kept df s e) <> [] ->
     int64 (py_sum (minutes <$> of_module m (kept df s e))) ->
     cumulative_actual df s e !! m = Some (py_sum (minutes <$> of_module m (kept df s e)))) /\
  cumulative_actual example_entries (PyDate.Date 2024 1 1 I) (PyDate.Date 2024 1 2 I) =
    {[ "stats" := 50; "algo" := 10; "total" := 60 ]}%string.
Proof.
  assert (forall m,
     cumulative_actual df s e !! m =
     if decide (m = "total"%string) then Some (wrap64 (py_sum (minutes <$> kept df s e)))
     else match of_module m (kept df s e) with
          | [] => None
          | rs => Some (wrap64 (py_sum (minutes <$> rs)))
          end) as Hlook.
  { intros m. rewrite cumulative_actual_unfold.
    destruct (decide (m = "total"%string)) as [-> | Hne].
    + apply lookup_insert_eq.
    + rewrite lookup_insert_ne by done. apply groupby_lookup. }
  split; [|split; [|split; [|split; [|split; [|split; [|split]]]]]].
  - intros r. unfold kept. rewrite list_elem_of_In, filter_In, <- list_elem_of_In.
    by rewrite in_range_spec.
  - apply groupby_lookup.
  - intros m r. unfold of_module.
    rewrite list_elem_of_In, filter_In, <- list_elem_of_In, bool_decide_eq_true.
    done.
  - apply cumulative_actual_unfold.
  - exact Hlook.
  - intros Hin. rewrite Hlook. cbn. by rewrite wrap64_id.
  - intros m Hm Hne Hin. rewrite Hlook. destruct (decide _) as [|_]; [done|].
    destruct (of_module m (kept df s e)) as [|r rs]; [done|]. by rewrite wrap64_id.
  - vm_compute. reflexivity.
Qed.

Lemma cumulative_actual_spec_witness :
  int64 (py_sum (minutes <$> kept example_entries (PyDate.Date 2024 1 1 I)
                               (PyDate.Date 2024 1 2 I))) /\
  cumulative_actual example_entries (PyDate.Date 2024 1 1 I) (PyDate.Date 2024 1 2 I)
    !! "total"%string = Some 60 /\
  cumulative_actual example_entries (PyDate.Date 2024 1 1 I) (PyDate.Date 2024 1 2 I)
    !! "stats"%string = Some 50.
Proof.
  assert (int64 (py_sum (minutes <$> kept example_entries (PyDate.Date 2024 1 1 I)
                                       (PyDate.Date 2024 1 2 I)))) as Htotal.
  { vm_compute. split; [discriminate | reflexivity]. }
  assert (int64 (py_sum (minutes <$> of_module "stats"
                           (kept example_entries (PyDate.Date 2024 1 1 I)
                              (PyDate.Date 2024 1 2 I))))) as Hstats.
  { vm_compute. split; [discriminate | reflexivity]. }
  destruct (cumulative_actual_spec example_entries (PyDate.Date 2024 1 1 I)
              (PyDate.Date 2024 1 2 I)) as (_ & _ & _ & _ & _ & Ht & Hm & _).
  split; [exact Htotal|]. split.
  - rewrite (Ht Htotal). reflexivity.
  - rewrite (Hm "stats"%string); [reflexivity | discriminate | | exact Hstats].
    vm_compute. discriminate.
Defined.

(** C4. On a frame without rows [cumulative_actual] returns exactly
    [{"total": 0}]: no module has a key. *)
Theorem cumulative_actual_empty (cols : list string) (s e : PyDate.date) :
  cumulative_actual (Frame cols []) s e = {[ "total"%string := 0 ]} /\
  dom (cumulative_actual (Frame cols []) s e) = {[ "total"%string ]}.
Proof. split; [reflexivity|]. cbn. apply dom_singleton_L. Qed.

(** C10 as stated fails: on two rows of one day with [2 ^ 63 - 1] and [1]
    minutes, neither against a module named "total", the key ["total"]
    holds [- 2 ^ 63] while the other values add up to [2 ^ 63]; and a row
    without a module is counted in ["total"] and in no other value. *)
Lemma total_key_overflow :
  Forall (fun r => module r <> Some "total"%string) (rows overflow_entries) /\
  kept overflow_entries (PyDate.Date 2024 1 1 I) (PyDate.Date 2024 1 1 I) <> [] /\
  cumulative_actual overflow_entries (PyDate.Date 2024 1 1 I) (PyDate.Date 2024 1 1 I)
    !! "total"%string = Some (- 2 ^ 63) /\
  py_sum (values (delete "total"%string
            (cumulative_actual overflow_entries (PyDate.Date 2024 1 1 I)
               (PyDate.Date 2024 1 1 I)))) = 2 ^ 63 /\
  ~ total_is_sum_of_modules overflow_entries
      (PyDate.Date 2024 1 1 I) (PyDate.Date 2024 1 1 I) /\
  Forall (fun r => module r <> Some "total"%string) (rows missing_module_entries) /\
  cumulative_actual missing_module_entries (PyDate.Date 2024 1 1 I)
      (PyDate.Date 2024 1 1 I) !! "total"%string = Some 8 /\
  py_sum (values (delete "total"%string
            (cumulative_actual missing_module_entries (PyDate.Date 2024 1 1 I)
               (PyDate.Date 2024 1 1 I)))) = 3 /\
  ~ total_is_sum_of_modules missing_module_entries
      (PyDate.Date 2024 1 1 I) (PyDate.Date 2024 1 1 I).
Proof.
  split; [repeat constructor; discriminate|]. split; [by vm_compute|].
  split; [by vm_compute|]. split; [by vm_compute|].
  split; [unfold total_is_sum_of_modules; vm_compute; discriminate|].
  split; [repeat constructor; discriminate|]. split; [by vm_compute|].
  split; [by vm_compute|].
  unfold total_is_sum_of_modules. vm_compute. discriminate.
Qed.

(** C10, amended. When no row is logged against a module named "total",
    every row in range has a module and some row lies in the range, the
    value at ["total"] is the sum of the values at the other keys, which are
    the modules, reduced to [int64]: it is that sum whenever that sum is
    within the range of [int64].  When a row in range is logged against a
    module named "total", the grouped sum of that module was at the key
    ["total"] before the grand sum was assigned to it: the result holds the
    grand sum there and is what it would be without that group. *)
Theorem cumulative_actual_total_key (df : DataFrame (entry PyDate.date))
    (s e : PyDate.date) :
  ((forall r, r ∈ rows df -> module r <> Some "total"%string) ->
   (forall r, r ∈ kept df s e -> is_Some (module r)) ->
   kept df s e <> [] ->
   cumulative_actual df s e !! "total"%string =
     Some (wrap64 (py_sum (values (delete "total"%string (cumulative_actual df s e))))) /\
   (int64 (py_sum (values (delete "total"%string (cumulative_actual df s e)))) ->
    total_is_sum_of_modules df s e) /\
   delete "total"%string (cumulative_actual df s e) = groupby_module_sum (kept df s e)) /\
  ((exists r, r ∈ kept df s e /\ module r = Some "total"%string) ->
   groupby_module_sum (kept df s e) !! "total"%string =
     Some (wrap64 (py_sum (minutes <$> of_module "total" (kept df s e)))) /\
   cumulative_actual df s e !! "total"%string =
     Some (wrap64 (py_sum (minutes <$> kept df s e))) /\
   cumulative_actual df s e =
     <["total"%string := wrap64 (py_sum (minutes <$> kept df s e))]>
       (delete "total"%string (groupby_module_sum (kept df s e)))).
Proof.
  unfold total_is_sum_of_modules. rewrite cumulative_actual_unfold. split.
  - intros Hno Hall Hne.
    assert (groupby_module_sum (kept df s e) !! "total"%string = None) as Hfree.
    { rewrite groupby_lookup, no_total_of_module; [done|].
      intros r Hr. apply Hno. unfold kept in Hr.
      apply list_elem_of_In, filter_In in Hr. apply list_elem_of_In, Hr. }
    rewrite lookup_insert_eq, delete_insert_id by done.
    assert (wrap64 (py_sum (minutes <$> kept df s e)) =
            wrap64 (py_sum (values (groupby_module_sum (kept df s e))))) as Hsum.
    { by rewrite groupby_values, with_module_all. }
    split; [by rewrite Hsum|]. split; [|done].
    intros Hin. by rewrite Hsum, wrap64_id.
  - intros (r & Hr & Hm). split; [|split].
    + rewrite groupby_lookup.
      pose proof (some_total_of_module _ _ Hr Hm) as Hne.
      by destruct (of_module "total" (kept df s e)).
    + apply lookup_insert_eq.
    + by rewrite insert_delete_eq.
Qed.

Lemma cumulative_actual_total_key_witness :
  (cumulative_actual example_entries (PyDate.Date 2024 1 1 I) (PyDate.Date 2024 1 2 I)
     !! "total"%string = Some (50 + 10)) /\
  (wrap64 (py_sum (minutes <$> of_module "total"
             (kept total_module_entries (PyDate.Date 2024 1 1 I) (PyDate.Date 2024 1 1 I))))
     = 5 /\
   cumulative_actual total_module_entries (PyDate.Date 2024 1 1 I) (PyDate.Date 2024 1 1 I)
     = {[ "algo" := 3; "total" := 8 ]}%string).
Proof.
  split.
  - destruct (cumulative_actual_total_key example_entries
                (PyDate.Date 2024 1 1 I) (PyDate.Date 2024 1 2 I)) as [H _].
    destruct H as (_ & H & _).
    + intros r Hr Hm. vm_compute in Hr.
      repeat (apply elem_of_cons in Hr as [-> | Hr]; [discriminate Hm|]).
      by apply elem_of_nil in Hr.
    + intros r Hr. vm_compute in Hr.
      repeat (apply elem_of_cons in Hr as [-> | Hr]; [by eexists|]).
      by apply elem_of_nil in Hr.
    + vm_compute. discriminate.
    + unfold total_is_sum_of_modules in H. rewrite H; [by vm_compute|].
      vm_compute. split; [discriminate | reflexivity].
  - destruct (cumulative_actual_total_key total_module_entries
                (PyDate.Date 2024 1 1 I) (PyDate.Date 2024 1 1 I)) as [_ H].
    destruct H as (_ & _ & H).
    + exists (Entry (PyDate.Date 2024 1 1 I) (Some "total") 5 (Some ""))%string.
      split; [vm_compute; left | reflexivity].
    + split; [vm_compute; reflexivity|]. rewrite H. vm_compute. reflexivity.
Defined.

(** C3 as stated fails: with the end one day before the start the range is
    reversed and the day count is [0], so every total is [0]. *)
Lemma cumulative_planned_reversed_by_one_day :
  PyDate.ltb (PyDate.Date 2024 1 1 I) (PyDate.Date 2024 1 2 I) = true /\
  day_count (PyDate.Date 2024 1 2 I) (PyDate.Date 2024 1 1 I) = 0 /\
  cumulative_planned example_plan (PyDate.Date 2024 1 2 I) (PyDate.Date 2024 1 1 I) =
    {[ "stats" := 0; "algo" := 0; "total" := 0 ]}%string /\
  ~ reversed_range_is_negative (PyDate.Date 2024 1 2 I) (PyDate.Date 2024 1 1 I).
Proof.
  split; [reflexivity|]. split; [reflexivity|]. split; [vm_compute; reflexivity|].
  intros H. specialize (H eq_refl). vm_compute in H. discriminate.
Qed.

(** C3, amended. [cumulative_planned] is the dictionary of each module's
    minutes per day times the inclusive day count, with the key ["total"] set
    to the sum of these products over all modules, which is the day count
    times the sum of the minutes per day.  A one-day range has day count [1]
    and gives the minutes per day back.  Nothing guards a reversed range: its
    day count is [0] when the end is the day before the start and negative
    when the end is earlier than that. *)
Theorem cumulative_planned_spec (pl : plan) (s e : PyDate.date) :
  cumulative_planned pl s e =
    <["total"%string :=
        py_sum (values ((fun v => v * day_count s e) <$> planned_minutes_per_day pl))]>
      ((fun v => v * day_count s e) <$> planned_minutes_per_day pl) /\
  (forall m,
     cumulative_planned pl s e !! m =
     if decide (m = "total"%string)
     then Some (py_sum (values ((fun v => v * day_count s e) <$> planned_minutes_per_day pl)))
     else (fun v => v * day_count s e) <$> planned_minutes_per_day pl !! m) /\
  py_sum (values ((fun v => v * day_count s e) <$> planned_minutes_per_day pl)) =
    py_sum (values (planned_minutes_per_day pl)) * day_count s e /\
  day_count s s = 1 /\
  (forall m, m <> "total"%string ->
     cumulative_planned pl s s !! m = planned_minutes_per_day pl !! m) /\
  (PyDate.ltb e s = true -> day_count s e <= 0) /\
  (day_count s e = 0 <-> PyDate.toordinal e = PyDate.toordinal s - 1) /\
  (day_count s e < 0 <-> PyDate.toordinal e < PyDate.toordinal s - 1).
Proof.
  assert (forall a b m, cumulative_planned pl a b !! m =
     if decide (m = "total"%string)
     then Some (py_sum (values ((fun v => v * day_count a b) <$> planned_minutes_per_day pl)))
     else (fun v => v * day_count a b) <$> planned_minutes_per_day pl !! m) as Hlook.
  { intros a b m. unfold cumulative_planned. fold (day_count a b).
    destruct (decide (m = "total"%string)) as [-> | Hne].
    - apply lookup_insert_eq.
    - rewrite lookup_insert_ne by done. apply lookup_fmap. }
  assert (day_count s s = 1) as Hone.
  { unfold day_count, PyDate.sub_days. lia. }
  split; [reflexivity|]. split; [apply Hlook|].
  split; [|split; [exact Hone|split; [|split; [|split]]]].
  - by rewrite values_fmap, py_sum_scale.
  - intros m Hm. rewrite Hlook, Hone. destruct (decide _) as [|_]; [done|].
    destruct (planned_minutes_per_day pl !! m) as [v|]; simpl; [f_equal; lia | done].
  - rewrite PyDateFacts.ltb_toordinal. unfold day_count, PyDate.sub_days. lia.
  - unfold day_count, PyDate.sub_days. lia.
  - unfold day_count, PyDate.sub_days. lia.
Qed.

Lemma cumulative_planned_spec_witness :
  PyDate.ltb (PyDate.Date 2024 1 1 I) (PyDate.Date 2024 1 3 I) = true /\
  day_count (PyDate.Date 2024 1 3 I) (PyDate.Date 2024 1 1 I) <= 0 /\
  cumulative_planned example_plan (PyDate.Date 2024 1 3 I) (PyDate.Date 2024 1 3 I)
    !! "stats"%string = Some 30.
Proof.
  destruct (cumulative_planned_spec example_plan (PyDate.Date 2024 1 3 I)
              (PyDate.Date 2024 1 1 I)) as (_ & _ & _ & _ & H1 & Hrev & _).
  split; [reflexivity|]. split; [apply Hrev; reflexivity|].
  rewrite H1 by discriminate. reflexivity.
Defined.

End EngineClaims.

(* ===================================================================== *)
(** ** The ledgers *)
(* ===================================================================== *)

Module LedgerFacts.
Import Frames Ledgers Props.

Section Rows.
Variable pd : pandas.


(** A date object that [pd.to_datetime] accepts is in range at midnight. *)
Lemma to_date_obj col d0 d :
  to_date pd col (DateObj d0) = Some d -> d0 = d /\ representable pd d 0 = true.
Proof.
  unfold to_date, to_datetime, in_bounds. cbn.
  destruct (representable pd d0 0) eqn:E; cbn; [|discriminate].
  intros [= <-]. done.
Qed.

Lemma read_date_isoformat col d :
  iso_column col = true -> read_date pd col (PyDate.isoformat d) = Some (d, 0).
Proof.
  intros H. unfold read_date. by rewrite H, PyDateFacts.fromisoformat_isoformat.
Qed.

(** What [save_progress] writes for a date, [load_progress] reads back as
    that date. *)
Lemma to_date_text_isoformat col d :
  iso_column col = true ->
  representable pd d 0 = true ->
  to_date pd col (Text (PyDate.isoformat d)) = Some d.
Proof.
  intros Hc H. unfold to_date, to_datetime, in_bounds.
  rewrite read_date_isoformat by done. cbn. by rewrite H.
Qed.


(** The [date] column of a file that [save_progress] wrote. *)
Lemma iso_column_written (rs : list (entry string)) :
  Forall (fun x => exists d, date x = PyDate.isoformat d) rs ->
  iso_column (text_column rs) = true.
Proof.
  unfold iso_column, text_column.
  induction 1 as [|x rs [d Hx] _ IH]; [done|].
  cbn. rewrite IH, Hx, PyDateFacts.fromisoformat_isoformat.
  rewrite bool_decide_eq_true_2; eauto.
Qed.

Lemma save_row_spec col mods notes r r' :
  save_row pd col mods notes r = Some r' ->
  exists d, to_date pd col (date r) = Some d /\
            r' = Entry (PyDate.isoformat d) (read_back pd mods (module r))
                   (minutes r) (read_back pd notes (note r)).
Proof.
  unfold save_row. intros H.
  destruct (to_date pd col (date r)) as [d|] eqn:E; [|discriminate].
  cbn in H. injection H as <-. by exists d.
Qed.

(** The file [save_progress] leaves: row by row the ISO text of the date,
    the minutes, and the two text cells as they read back. *)
Lemma save_progress_rows df fs fs' :
  save_progress pd df fs = Some fs' ->
  exists rs,
    fs' = Files (Some (Frame (columns df) rs)) (milestones_csv fs) (reflections_csv fs) /\
    Forall2 (fun r x => exists d, to_date pd (date <$> rows df) (date r) = Some d /\
                                  date x = PyDate.isoformat d /\
                                  minutes x = minutes r /\
                                  module x = read_back pd (module <$> rows df) (module r) /\
                                  note x = read_back pd (note <$> rows df) (note r))
      (rows df) rs.
Proof.
  unfold save_progress. intros H.
  destruct (mapM _ (rows df)) as [rs|] eqn:Hrs; [|discriminate].
  cbn in H. injection H as <-. exists rs. split; [reflexivity|].
  apply mapM_Some in Hrs. eapply Forall2_impl; [exact Hrs|].
  intros r x (d & Hd & ->)%save_row_spec. exists d. done.
Qed.




End Rows.
End LedgerFacts.

Module LedgerClaims.
Import Frames Ledgers Props LedgerFacts.



(** C8. When its file is absent, each [load_*] returns, without failing, a
    frame with no row and the ledger's column labels: [date, module, minutes,
    note] for progress, [week, done_date, note] for milestones, [timestamp,
    date, topic, mood, text, tags] for reflections. *)
Theorem load_missing_file (pd : pandas) (T : Type)
    (parse_timestamp : string -> option T) (fs : files) :
  (progress_csv fs = None ->
   load_progress pd fs =
     Some (Frame ["date"; "module"; "minutes"; "note"]%string [])) /\
  (milestones_csv fs = None ->
   load_milestones fs = Frame ["week"; "done_date"; "note"]%string []) /\
  (reflections_csv fs = None ->
   load_reflections T parse_timestamp fs =
     Frame ["timestamp"; "date"; "topic"; "mood"; "text"; "tags"]%string []).
Proof.
  unfold load_progress, load_milestones, load_reflections.
  repeat split; intros ->; reflexivity.
Qed.

Lemma load_missing_file_witness :
  load_progress ns_pandas (Files None None None) =
    Some (Frame ["date"; "module"; "minutes"; "note"]%string []) /\
  load_milestones (Files None None None) =
    Frame ["week"; "done_date"; "note"]%string [] /\
  load_reflections string Some (Files None None None) =
    Frame ["timestamp"; "date"; "topic"; "mood"; "text"; "tags"]%string [].
Proof.
  destruct (load_missing_file ns_pandas string Some (Files None None None))
    as (Hp & Hm & Hr).
  split; [apply Hp; reflexivity|]. split; [apply Hm | apply Hr]; reflexivity.
Defined.

End LedgerClaims.

(* ===================================================================== *)
(** ** The page *)
(* ===================================================================== *)

Module HandlerFacts.
Import Frames Ledgers Engine Handlers Props.

Lemma upsert_rows w d n ms :
  rows (upsert w d n ms) =
  List.filter (fun r => negb (week r =? w)) (rows ms) ++ [Milestone w d n].
Proof. reflexivity. Qed.

Lemma filter_week_other w (rs : list milestone) :
  List.filter (fun r => week r =? w) (List.filter (fun r => negb (week r =? w)) rs) = [].
Proof.
  induction rs as [|r rs IH]; [reflexivity|]. cbn [List.filter].
  destruct (week r =? w) eqn:E; cbn [negb List.filter]; [exact IH|].
  by rewrite E.
Qed.

Lemma upsert_week_rows w d n ms :
  List.filter (fun r => week r =? w) (rows (upsert w d n ms)) = [Milestone w d n].
Proof.
  rewrite upsert_rows, List.filter_app, filter_week_other. cbn.
  by rewrite Z.eqb_refl.
Qed.

Lemma upsert_other_rows w d n ms w' :
  w' <> w ->
  List.filter (fun r => week r =? w') (rows (upsert w d n ms)) =
  List.filter (fun r => week r =? w') (rows ms).
Proof.
  intros Hne. rewrite upsert_rows, List.filter_app. cbn.
  destruct (Z.eqb_spec w w') as [|_]; [congruence|]. rewrite app_nil_r.
  induction (rows ms) as [|r rs IH]; [reflexivity|]. cbn [List.filter].
  destruct (Z.eqb_spec (week r) w) as [E|E]; cbn [negb List.filter].
  - destruct (Z.eqb_spec (week r) w') as [E'|_]; [congruence | exact IH].
  - destruct (week r =? w'); [f_equal|]; exact IH.
Qed.

Lemma load_save_milestones ms fs : load_milestones (save_milestones ms fs) = ms.
Proof. reflexivity. Qed.

Lemma upsert_keeps_done w d n ms wk :
  wk ∈ done_weeks ms -> wk ∈ done_weeks (upsert w d n ms).
Proof.
  unfold done_weeks. rewrite upsert_rows, fmap_app, elem_of_app.
  intros (r & -> & Hr)%list_elem_of_fmap.
  destruct (Z.eqb_spec (week r) w) as [E | E].
  - right. rewrite E. cbn. left.
  - left. apply list_elem_of_fmap. exists r. split; [done|].
    apply list_elem_of_In, filter_In. split; [by apply list_elem_of_In|].
    by apply negb_true_iff, Z.eqb_neq.
Qed.



End HandlerFacts.

Module HandlerClaims.
Import Frames Ledgers Engine Handlers Props PageProps HandlerFacts.

(** C5. The checked deliverable form drops every row of the given week from
    the milestone table, appends one row for the week with the given date and
    note, and writes the table to the milestone file.  Submitting it twice
    for one week, the second run reading what the first wrote, leaves in the
    file one row for that week: the one of the second submission, with its
    note. *)
Theorem upsert_spec (ms : DataFrame milestone) (fs : files) (w : Z)
    (d1 d2 : PyDate.date) (n1 n2 : string) :
  rows (upsert w (PyDate.isoformat d1) n1 ms) =
    List.filter (fun r => negb (week r =? w)) (rows ms)
      ++ [Milestone w (PyDate.isoformat d1) n1] /\
  save_deliverable_status true w d1 n1 ms fs =
    (ms, save_milestones (upsert w (PyDate.isoformat d1) n1 ms) fs, MarkedDone) /\
  milestones_csv (save_deliverable_status true w d1 n1 ms fs).1.2 =
    Some (upsert w (PyDate.isoformat d1) n1 ms) /\
  List.filter (fun r => week r =? w) (rows (upsert w (PyDate.isoformat d1) n1 ms)) =
    [Milestone w (PyDate.isoformat d1) n1] /\
  (let fs1 := (save_deliverable_status true w d1 n1 ms fs).1.2 in
   let fs2 := (save_deliverable_status true w d2 n2 (load_milestones fs1) fs1).1.2 in
   exists t, milestones_csv fs2 = Some t /\
     List.filter (fun r => week r =? w) (rows t) =
       [Milestone w (PyDate.isoformat d2) n2]).
Proof.
  split; [apply upsert_rows|]. split; [reflexivity|]. split; [reflexivity|].
  split; [apply upsert_week_rows|].
  cbn [save_deliverable_status fst snd]. eexists. split; [reflexivity|].
  apply upsert_week_rows.
Qed.




End HandlerClaims.

(* ===================================================================== *)
(** ** The feed reader *)
(* ===================================================================== *)

Module FeedClaims.
Import Feed FeedProps.

(** C6 fails on a request that raises an exception whose [str] is empty,
    such as [MemoryError()]: [fetch_rss] returns the empty list with the
    empty string as its error, and the page, which tests [if err:], then
    shows no warning and no item.  On a response that is no feed, where the
    parser raises nothing and finds no entry, [fetch_rss] returns the empty
    list with no error at all. *)
Lemma fetch_rss_empty_message :
  fetch_rss unit answering_get (fun _ => Return tt) (fun _ => "<html></html>"%string)
    (parse_to []) id "http://feed.example/page" 10 8 = ([], None) /\
  Views.render_rss "http://unreachable.invalid/feed"
    (fetch_rss unit (failing_get (Exn "")) (fun _ => Return tt) (fun _ => ""%string)
       (parse_to []) id "http://unreachable.invalid/feed" 10 8) = [] /\
  fetch_body unit (failing_get (Exn "")) (fun _ => Return tt) (fun _ => ""%string)
    (parse_to []) id "http://unreachable.invalid/feed" 10 8 = Raise (Exn "") /\
  fetch_rss unit (failing_get (Exn "")) (fun _ => Return tt) (fun _ => ""%string)
    (parse_to []) id "http://unreachable.invalid/feed" 10 8 = ([], Some ""%string) /\
  ~ failure_has_message unit (failing_get (Exn "")) (fun _ => Return tt)
      (fun _ => ""%string) (parse_to []) id "http://unreachable.invalid/feed" 10 8.
Proof.
  split; [reflexivity|].
  split; [reflexivity|]. split; [reflexivity|]. split; [reflexivity|].
  intros H. destruct (H (Exn "") eq_refl) as (msg & Hmsg & Hne).
  apply Hne. by injection Hmsg as <-.
Qed.

End FeedClaims.

(* ===================================================================== *)
(** ** More on the reconciliation functions *)
(* ===================================================================== *)

Module MoreEngineFacts.
Import Frames Ledgers Engine Props Views SumFacts EngineFacts.

Lemma filter_perm {A} (f : A -> bool) (l l' : list A) :
  l ≡ₚ l' -> List.filter f l ≡ₚ List.filter f l'.
Proof.
  induction 1 as [|x l l' _ IH|x y l|l l' l'' _ IH1 _ IH2]; cbn [List.filter].
  - done.
  - destruct (f x); [by constructor | done].
  - destruct (f x), (f y); try done. apply perm_swap.
  - by etrans.
Qed.

Lemma filter_comm {A} (f g : A -> bool) (l : list A) :
  List.filter f (List.filter g l) = List.filter g (List.filter f l).
Proof.
  induction l as [|x l IH]; [done|]. cbn [List.filter].
  destruct (f x) eqn:Ef, (g x) eqn:Eg; cbn [List.filter]; rewrite ?Ef, ?Eg, IH; done.
Qed.

(** The minutes of the rows that pass [f] are those of the rows that pass
    [g] plus those of the rows that pass [h], when [f] is the disjoint union
    of [g] and [h]. *)
Lemma minutes_filter_split (f g h : entry PyDate.date -> bool) rs :
  (forall r, f r = g r || h r) -> (forall r, g r && h r = false) ->
  py_sum (minutes <$> List.filter f rs) =
  py_sum (minutes <$> List.filter g rs) + py_sum (minutes <$> List.filter h rs).
Proof.
  intros Hf Hd. induction rs as [|r rs IH]; [reflexivity|].
  cbn [List.filter]. rewrite Hf. specialize (Hd r).
  destruct (g r), (h r); try discriminate; cbn [orb];
    rewrite ?fmap_cons, ?py_sum_cons, IH; lia.
Qed.

Lemma get0_total df s e :
  get0 (cumulative_actual df s e) "total" = wrap64 (py_sum (minutes <$> kept df s e)).
Proof. unfold get0. by rewrite cumulative_actual_unfold, lookup_insert_eq. Qed.

Lemma get0_module df s e k :
  k <> "total"%string ->
  get0 (cumulative_actual df s e) k =
  wrap64 (py_sum (minutes <$> of_module k (kept df s e))).
Proof.
  intros Hk. unfold get0.
  rewrite cumulative_actual_unfold, lookup_insert_ne, groupby_lookup by done.
  by destruct (of_module k (kept df s e)).
Qed.

Lemma kept_nil_actual df s e :
  kept df s e = [] -> cumulative_actual df s e = {[ "total"%string := 0 ]}.
Proof. intros H. rewrite cumulative_actual_unfold, H. reflexivity. Qed.


Lemma get0_planned pl a b k :
  get0 (cumulative_planned pl a b) k =
  (if decide (k = "total"%string) then py_sum (values (planned_minutes_per_day pl))
   else get0 (planned_minutes_per_day pl) k) * day_count a b.
Proof.
  unfold get0, cumulative_planned. fold (day_count a b).
  destruct (decide (k = "total"%string)) as [-> | Hk].
  - rewrite lookup_insert_eq. cbn. by rewrite values_fmap, py_sum_scale.
  - rewrite lookup_insert_ne, lookup_fmap by done.
    by destruct (planned_minutes_per_day pl !! k).
Qed.

Lemma get0_planned_total pl a b :
  get0 (cumulative_planned pl a b) "total" =
  py_sum (values (planned_minutes_per_day pl)) * day_count a b.
Proof. rewrite get0_planned. by destruct (decide _). Qed.

Lemma get0_planned_module pl a b k :
  k <> "total"%string ->
  get0 (cumulative_planned pl a b) k =
  get0 (planned_minutes_per_day pl) k * day_count a b.
Proof. intros Hk. rewrite get0_planned. by destruct (decide _). Qed.

End MoreEngineFacts.

Module EngineExtras.
Import Frames Ledgers Engine Props Views SumFacts EngineFacts MoreEngineFacts.

(** X1. With the start date [s] of the plan, [week_index] is never
    negative, is [0] exactly on the dates before [s], never goes down as
    [today] moves forward, and from [s] on goes up by one every seven
    days. *)
Theorem week_index_monotone (pl : plan) (s t1 t2 : PyDate.date) :
  PyDate.fromisoformat (start_date pl) = Some s ->
  exists w1 w2,
    week_index pl t1 = Some w1 /\ week_index pl t2 = Some w2 /\
    0 <= w1 /\
    (w1 = 0 <-> PyDate.ltb t1 s = true) /\
    (PyDate.leb t1 t2 = true -> w1 <= w2) /\
    (PyDate.geb t1 s = true -> PyDate.sub_days t2 t1 = 7 -> w2 = w1 + 1).
Proof.
  intros Hs. unfold week_index. rewrite Hs. cbn [mbind option_bind].
  pose proof (PyDateFacts.ltb_toordinal t1 s) as Hlt.
  pose proof (PyDateFacts.leb_toordinal t1 t2) as Hle.
  pose proof (PyDateFacts.geb_toordinal t1 s) as Hge.
  unfold PyDate.sub_days in *.
  set (a := PyDate.toordinal t1) in *. set (b := PyDate.toordinal t2) in *.
  set (c := PyDate.toordinal s) in *.
  destruct (Z.ltb_spec (a - c) 0), (Z.ltb_spec (b - c) 0);
    eexists _, _; (split; [reflexivity|]); (split; [reflexivity|]);
    rewrite Hlt, Hle, Hge;
    (split; [Z.div_mod_to_equations; lia|]);
    (split; [split; intros; Z.div_mod_to_equations; lia|]);
    split; intros; Z.div_mod_to_equations; lia.
Qed.

Lemma week_index_monotone_witness :
  PyDate.fromisoformat (start_date example_plan) = Some (PyDate.Date 2024 1 1 I) /\
  exists w1 w2,
    week_index example_plan (PyDate.Date 2024 1 3 I) = Some w1 /\
    week_index example_plan (PyDate.Date 2024 1 10 I) = Some w2 /\
    w2 = w1 + 1.
Proof.
  split; [reflexivity|].
  destruct (week_index_monotone example_plan (PyDate.Date 2024 1 1 I)
              (PyDate.Date 2024 1 3 I) (PyDate.Date 2024 1 10 I) eq_refl)
    as (w1 & w2 & H1 & H2 & _ & _ & _ & Hstep).
  exists w1, w2. split; [exact H1|]. split; [exact H2|].
  apply Hstep; reflexivity.
Defined.

(** X2. When the end date is before the start date, or no row is dated
    within the range, [cumulative_actual] returns exactly [{"total": 0}],
    whatever the frame holds. *)
Theorem cumulative_actual_nothing_in_range (df : DataFrame (entry PyDate.date))
    (s e : PyDate.date) :
  (PyDate.ltb e s = true -> cumulative_actual df s e = {[ "total"%string := 0 ]}) /\
  ((forall r, r ∈ rows df -> in_range s e r = false) ->
   cumulative_actual df s e = {[ "total"%string := 0 ]}).
Proof.
  assert ((forall r, r ∈ rows df -> in_range s e r = false) ->
          cumulative_actual df s e = {[ "total"%string := 0 ]}) as Hnone.
  { intros H. apply kept_nil_actual. unfold kept.
    induction (rows df) as [|r rs IH]; [reflexivity|]. cbn [List.filter].
    rewrite (H r) by left. apply IH. intros r' Hr'. apply H. by right. }
  split; [|exact Hnone].
  intros Hrev. apply Hnone. intros r _.
  apply not_true_is_false. rewrite in_range_spec.
  apply PyDateFacts.ltb_toordinal in Hrev. lia.
Qed.

Lemma cumulative_actual_nothing_in_range_witness :
  cumulative_actual example_entries (PyDate.Date 2024 1 2 I) (PyDate.Date 2024 1 1 I) =
    {[ "total"%string := 0 ]}.
Proof.
  destruct (cumulative_actual_nothing_in_range example_entries
              (PyDate.Date 2024 1 2 I) (PyDate.Date 2024 1 1 I)) as [H _].
  apply H. reflexivity.
Defined.

(** X3. The order of the rows does not matter to [cumulative_actual]: two
    frames with the same rows in any order give the same dictionary. *)
Theorem cumulative_actual_permutation (df df' : DataFrame (entry PyDate.date))
    (s e : PyDate.date) :
  rows df ≡ₚ rows df' ->
  cumulative_actual df s e = cumulative_actual df' s e.
Proof.
  intros Hp. rewrite !cumulative_actual_unfold.
  assert (kept df s e ≡ₚ kept df' s e) as Hk by by apply filter_perm.
  f_equal.
  - f_equal. apply py_sum_perm. by rewrite Hk.
  - apply map_eq. intros m. rewrite !groupby_lookup.
    assert (of_module m (kept df s e) ≡ₚ of_module m (kept df' s e)) as Hm
      by by apply filter_perm.
    destruct (of_module m (kept df s e)) as [|r rs],
      (of_module m (kept df' s e)) as [|r' rs'].
    + reflexivity.
    + by apply Permutation_nil_cons in Hm.
    + symmetry in Hm. by apply Permutation_nil_cons in Hm.
    + do 2 f_equal. apply py_sum_perm. by rewrite Hm.
Qed.

Lemma cumulative_actual_permutation_witness :
  cumulative_actual
    (Frame progress_columns (rev (rows example_entries)))
    (PyDate.Date 2024 1 1 I) (PyDate.Date 2024 1 2 I) =
  cumulative_actual example_entries (PyDate.Date 2024 1 1 I) (PyDate.Date 2024 1 2 I).
Proof.
  apply cumulative_actual_permutation. cbn [rows]. symmetry. apply Permutation_rev.
Defined.

(** X4. [cumulative_actual] adds up over adjacent ranges, in [int64]: when
    [m'] is the day after [m], [start <= m'] and [m <= end], every key
    ([.get(k, 0)], the total included) over [start..end] is its value over
    [start..m] plus its value over [m'..end], reduced to [int64]; it is
    their sum whenever that sum is within the range of [int64]. *)
Theorem cumulative_actual_adjacent (df : DataFrame (entry PyDate.date))
    (s m m' e : PyDate.date) (k : string) :
  PyDate.sub_days m' m = 1 ->
  PyDate.leb s m' = true -> PyDate.leb m e = true ->
  get0 (cumulative_actual df s e) k =
    wrap64 (get0 (cumulative_actual df s m) k + get0 (cumulative_actual df m' e) k) /\
  (int64 (get0 (cumulative_actual df s m) k + get0 (cumulative_actual df m' e) k) ->
   get0 (cumulative_actual df s e) k =
   get0 (cumulative_actual df s m) k + get0 (cumulative_actual df m' e) k).
Proof.
  unfold PyDate.sub_days. rewrite !PyDateFacts.leb_toordinal. intros Hd Hs He.
  assert (get0 (cumulative_actual df s e) k =
          wrap64 (get0 (cumulative_actual df s m) k +
                  get0 (cumulative_actual df m' e) k)) as Hsum;
    [|split; [exact Hsum | intros Hin; by rewrite Hsum, wrap64_id]].
  assert (forall r, in_range s e r = in_range s m r || in_range m' e r) as Hor.
  { intros r. apply eq_true_iff_eq.
    rewrite orb_true_iff, !in_range_spec. lia. }
  assert (forall r, in_range s m r && in_range m' e r = false) as Hdis.
  { intros r. apply not_true_is_false.
    rewrite andb_true_iff, !in_range_spec. lia. }
  destruct (decide (k = "total"%string)) as [-> | Hk].
  - rewrite !get0_total, wrap64_add_l, wrap64_add_r. f_equal.
    unfold kept. by apply minutes_filter_split.
  - rewrite !get0_module, wrap64_add_l, wrap64_add_r by done. f_equal.
    unfold of_module, kept.
    rewrite !(filter_comm _ (in_range _ _)). by apply minutes_filter_split.
Qed.

Lemma cumulative_actual_adjacent_witness :
  get0 (cumulative_actual example_entries (PyDate.Date 2024 1 1 I) (PyDate.Date 2024 1 2 I))
    "stats" =
  get0 (cumulative_actual example_entries (PyDate.Date 2024 1 1 I) (PyDate.Date 2024 1 1 I))
    "stats" +
  get0 (cumulative_actual example_entries (PyDate.Date 2024 1 2 I) (PyDate.Date 2024 1 2 I))
    "stats".
Proof.
  apply cumulative_actual_adjacent; try reflexivity.
  vm_compute. split; [discriminate | reflexivity].
Defined.


(** X5. [cumulative_planned] adds up over adjacent ranges, in whatever order
    the dates come: when [m'] is the day after [m], every key over
    [start..end] is its value over [start..m] plus its value over
    [m'..end]. *)
Theorem cumulative_planned_adjacent (pl : plan) (s m m' e : PyDate.date) (k : string) :
  PyDate.sub_days m' m = 1 ->
  get0 (cumulative_planned pl s e) k =
  get0 (cumulative_planned pl s m) k + get0 (cumulative_planned pl m' e) k.
Proof.
  intros Hd. rewrite !get0_planned.
  assert (day_count s e = day_count s m + day_count m' e) as ->.
  { unfold day_count, PyDate.sub_days in *. lia. }
  lia.
Qed.

Lemma cumulative_planned_adjacent_witness :
  get0 (cumulative_planned example_plan (PyDate.Date 2024 1 1 I) (PyDate.Date 2024 1 9 I))
    "total" =
  get0 (cumulative_planned example_plan (PyDate.Date 2024 1 1 I) (PyDate.Date 2024 1 4 I))
    "total" +
  get0 (cumulative_planned example_plan (PyDate.Date 2024 1 5 I) (PyDate.Date 2024 1 9 I))
    "total".
Proof. apply cumulative_planned_adjacent. reflexivity. Defined.

(** X6. As the page calls them, with the plan's own start date:
    [week_index] is [0] exactly when the planned day count is not positive,
    in week [w >= 1] the day count lies in [7(w-1)+1 .. 7w], and the planned
    total is the planned minutes per day times the day count. *)
Theorem week_index_and_planned_days (pl : plan) (s today : PyDate.date) (w : Z) :
  PyDate.fromisoformat (start_date pl) = Some s ->
  week_index pl today = Some w ->
  (w = 0 <-> day_count s today <= 0) /\
  (1 <= w -> 7 * (w - 1) + 1 <= day_count s today <= 7 * w) /\
  get0 (cumulative_planned pl s today) "total" = planned_per_day pl * day_count s today.
Proof.
  intros Hs. unfold week_index. rewrite Hs. cbn [mbind option_bind].
  rewrite get0_planned_total. unfold planned_per_day, day_count.
  destruct (Z.ltb_spec (PyDate.sub_days today s) 0) as [Hlt | Hge];
    intros [= <-]; (split; [|split]); try done;
    try (split; intros); Z.div_mod_to_equations; lia.
Qed.

Lemma week_index_and_planned_days_witness :
  PyDate.fromisoformat (start_date example_plan) = Some (PyDate.Date 2024 1 1 I) /\
  week_index example_plan (PyDate.Date 2024 1 10 I) = Some 2 /\
  7 * (2 - 1) + 1 <= day_count (PyDate.Date 2024 1 1 I) (PyDate.Date 2024 1 10 I) <= 7 * 2.
Proof.
  split; [reflexivity|]. split; [reflexivity|].
  destruct (week_index_and_planned_days example_plan (PyDate.Date 2024 1 1 I)
              (PyDate.Date 2024 1 10 I) 2 eq_refl eq_refl) as (_ & H & _).
  apply H. lia.
Defined.

End EngineExtras.

(* ===================================================================== *)
(** ** More on the page and its ledgers *)
(* ===================================================================== *)

Module PageFacts.
Import Frames Ledgers Engine Handlers Views Props LedgerProps LedgerFacts HandlerFacts.

Section Page.
Variable pd : pandas.
Variable T : Type.
Variable parse_timestamp : string -> option T.
Variable show_timestamp : option T -> string.
Variable strip : string -> string.

Lemma save_progress_inv df fs fs' :
  save_progress pd df fs = Some fs' ->
  exists rs,
    mapM (save_row pd (date <$> rows df) (module <$> rows df) (note <$> rows df))
      (rows df) = Some rs /\
    fs' = Files (Some (Frame (columns df) rs)) (milestones_csv fs) (reflections_csv fs).
Proof.
  unfold save_progress. destruct (mapM _ _) as [rs|]; [|discriminate].
  cbn. intros [= <-]. eauto.
Qed.

Lemma load_progress_length fs df :
  load_progress pd fs = Some df ->
  length (rows df) = length (progress_rows fs).
Proof.
  unfold load_progress, progress_rows, len.
  destruct (progress_csv fs) as [t|]; [|by intros [= <-]].
  destruct (Z.eqb_spec (Z.of_nat (length (rows t))) 0) as [Hz|_].
  - intros [= <-]. cbn. lia.
  - destruct (mapM _ _) as [rs|] eqn:E; [|discriminate]. cbn. intros [= <-].
    cbn. symmetry. by eapply length_mapM.
Qed.

Lemma load_progress_columns fs df :
  load_progress pd fs = Some df ->
  columns df = match progress_csv fs with
               | Some t => columns t
               | None => progress_columns
               end.
Proof.
  unfold load_progress.
  destruct (progress_csv fs) as [t|]; [|by intros [= <-]].
  destruct (len t =? 0); [by intros [= <-]|].
  destruct (mapM _ _); [|discriminate]. cbn. by intros [= <-].
Qed.

(** A file of canonical rows loads, row by row, to the dates it spells. *)
Lemma load_canonical fs :
  canonical_progress pd fs ->
  exists df, load_progress pd fs = Some df /\
    Forall2 (fun r r' => written r' = r /\ representable pd (date r') 0 = true)
      (progress_rows fs) (rows df).
Proof.
  unfold canonical_progress, progress_rows, load_progress.
  destruct (progress_csv fs) as [t|]; [|intros _; eexists; split; [done|constructor]].
  intros Hall.
  assert (iso_column (text_column (rows t)) = true) as Hiso.
  { apply iso_column_written. eapply Forall_impl; [exact Hall|].
    intros r (d & Hd & _). eauto. }
  revert Hiso. generalize (text_column (rows t)). intros col Hiso.
  assert (exists rs, mapM (load_row pd col) (rows t) = Some rs /\
            Forall2 (fun r r' => written r' = r /\ representable pd (date r') 0 = true)
              (rows t) rs) as (rs & Hrs & H2).
  { induction Hall as [|r l (d & Hd & Hr) _ (rs & Hrs & H2)].
    - exists []. split; [done | constructor].
    - exists (set_date d r :: rs). split.
      + apply mapM_Some. constructor; [|by apply mapM_Some].
        unfold load_row. rewrite Hd, to_date_text_isoformat by done. done.
      + constructor; [|done]. split; [|done].
        destruct r as [dr mr mi nr]. cbn in Hd. subst dr. reflexivity. }
  unfold len. destruct (Z.eqb_spec (Z.of_nat (length (rows t))) 0) as [Hz|_].
  - destruct (rows t); [|cbn in Hz; lia]. injection Hrs as <-.
    eexists. split; [done|]. cbn. constructor.
  - rewrite Hrs. cbn. eexists. split; [done|]. done.
Qed.

(** The columns of the file a save leaves. *)
Lemma written_rows_columns (xs : list (entry PyDate.date)) :
  date <$> written_rows pd xs = (fun r => PyDate.isoformat (date r)) <$> xs /\
  minutes <$> written_rows pd xs = minutes <$> xs /\
  module <$> written_rows pd xs = read_back_column pd (module <$> xs) /\
  note <$> written_rows pd xs = read_back_column pd (note <$> xs).
Proof.
  unfold written_rows, read_back_column. by rewrite <- !list_fmap_compose.
Qed.

(** Saving rows that hold date objects in range writes each of them. *)
Lemma save_date_objects cols fs (xs : list (entry PyDate.date)) :
  Forall (fun r => representable pd (date r) 0 = true) xs ->
  save_progress pd (Frame cols ((fun r => set_date (DateObj (date r)) r) <$> xs)) fs =
  Some (Files (Some (Frame cols (written_rows pd xs)))
          (milestones_csv fs) (reflections_csv fs)).
Proof.
  intros Hall. unfold save_progress. cbn [rows columns].
  assert (forall col mods notes,
            mapM (save_row pd col mods notes)
              ((fun r => set_date (DateObj (date r)) r) <$> xs) =
            Some (written_as pd mods notes <$> xs)) as Hrows.
  { intros col mods notes. apply mapM_Some. rewrite Forall2_fmap.
    apply Forall_Forall2_diag. eapply Forall_impl; [exact Hall|].
    intros r Hr. unfold save_row, to_date, to_datetime, in_bounds. cbn.
    by rewrite Hr. }
  rewrite Hrows. cbn [mbind option_bind]. unfold written_rows.
  by rewrite <- !list_fmap_compose.
Qed.

(** A save of rows that hold date objects leaves ISO dates in range, if it
    comes to its end. *)
Lemma save_date_objects_canonical cols fs fs' (xs : list (entry PyDate.date)) :
  save_progress pd (Frame cols ((fun r => set_date (DateObj (date r)) r) <$> xs)) fs =
    Some fs' ->
  canonical_progress pd fs'.
Proof.
  intros (rs & -> & Hrs)%save_progress_rows.
  unfold canonical_progress, progress_rows. cbn [progress_csv rows] in *.
  rewrite Forall2_fmap_l in Hrs.
  induction Hrs as [|r x l l' (d & Hd & Hx & _) _ IH]; constructor; [|done].
  cbn [date set_date] in Hd. apply to_date_obj in Hd as [_ Hd]. by exists d.
Qed.

(** The frame the two logging handlers save: the loaded rows, then the new
    ones, all with date objects. *)
Lemma concat_as_cells df (news : list (entry PyDate.date)) :
  concat (as_cells df)
    (of_records progress_columns ((fun r => set_date (DateObj (date r)) r) <$> news)) =
  Frame (columns (concat (as_cells df)
           (of_records progress_columns
              ((fun r => set_date (DateObj (date r)) r) <$> news))))
    ((fun r => set_date (DateObj (date r)) r) <$> (rows df ++ news)).
Proof. unfold concat, as_cells. cbn [rows columns]. by rewrite fmap_app. Qed.

(** Saving the loaded rows with more rows after them writes the dates and
    the minutes of the file as they were, then those of the new rows; the
    text columns are read back as a whole. *)
Lemma append_progress fs (news : list (entry PyDate.date)) :
  canonical_progress pd fs ->
  Forall (fun r => representable pd (date r) 0 = true) news ->
  exists df fs',
    load_progress pd fs = Some df /\
    save_progress pd
      (concat (as_cells df)
         (of_records progress_columns
            ((fun r => set_date (DateObj (date r)) r) <$> news))) fs = Some fs' /\
    date <$> progress_rows fs' =
      (date <$> progress_rows fs) ++ ((fun r => PyDate.isoformat (date r)) <$> news) /\
    minutes <$> progress_rows fs' = (minutes <$> progress_rows fs) ++ (minutes <$> news) /\
    module <$> progress_rows fs' =
      read_back_column pd ((module <$> progress_rows fs) ++ (module <$> news)) /\
    note <$> progress_rows fs' =
      read_back_column pd ((note <$> progress_rows fs) ++ (note <$> news)) /\
    milestones_csv fs' = milestones_csv fs /\
    reflections_csv fs' = reflections_csv fs /\
    canonical_progress pd fs'.
Proof.
  intros Hcan Hnew.
  destruct (load_canonical fs Hcan) as (df & Hload & H2).
  exists df. rewrite concat_as_cells.
  assert (progress_rows fs = written <$> rows df) as Hfile.
  { clear Hload. induction H2 as [|r r' l l' [Hw _] _ IH]; [done|].
    cbn. by rewrite Hw, IH. }
  assert (Forall (fun r => representable pd (date r) 0 = true) (rows df ++ news))
    as Hall.
  { apply Forall_app. split; [|done]. clear Hload Hfile.
    induction H2 as [|r r' l l' [_ Hr] _ IH]; constructor; done. }
  rewrite (save_date_objects _ fs _ Hall).
  eexists. split; [done|]. split; [reflexivity|].
  unfold progress_rows at 1 3 5 7. cbn [progress_csv rows milestones_csv reflections_csv].
  destruct (written_rows_columns (rows df ++ news)) as (-> & -> & -> & ->).
  rewrite Hfile, !fmap_app, <- !list_fmap_compose.
  repeat split; try done.
  eapply save_date_objects_canonical. apply (save_date_objects _ fs _ Hall).
Qed.

End Page.
End PageFacts.

Module PageFacts2.
Import Frames Ledgers Engine Handlers Views Props LedgerProps LedgerFacts HandlerFacts
  PageFacts Session.

Section Page.
Variable pd : pandas.
Variable T : Type.
Variable parse_timestamp : string -> option T.
Variable show_timestamp : option T -> string.
Variable strip : string -> string.

Local Notation "'run_page'" :=
  (run pd T parse_timestamp show_timestamp strip).
Local Notation "'runs_page'" :=
  (runs pd T parse_timestamp show_timestamp strip).

(** What a run that comes to its end did, button by button. *)
Lemma run_cases pl today now w b fs fs' :
  run_page pl today now w b fs = Some fs' ->
  exists df cw,
    load_progress pd fs = Some df /\
    week_index pl today = Some cw /\
    match b with
    | NoButton => fs' = fs
    | AddLog => add_log pd w df fs = Some fs'
    | QuickAdd => quick_add pd pl w df fs = Some fs'
    | SaveDeliverableStatus =>
        fs' = if deliverable_done w
              then save_milestones
                     (upsert cw (PyDate.isoformat (log_date w)) (deliverable_note w)
                        (load_milestones fs)) fs
              else fs
    | SaveReflection =>
        fs' = save_reflection T show_timestamp strip today now w
                (load_reflections T parse_timestamp fs) fs
    end.
Proof.
  unfold run.
  destruct (load_progress pd fs) as [df|]; [|discriminate].
  cbn [mbind option_bind].
  destruct (week_index pl today) as [cw|]; [|discriminate].
  cbn [mbind option_bind].
  destruct (decide (modules pl = ∅)); [discriminate|].
  intros H. exists df, cw. split; [done|]. split; [done|].
  destruct b; try (by injection H as <-); try done.
  injection H as <-. unfold save_deliverable_status.
  by destruct (deliverable_done w).
Qed.

(** A property every run keeps holds after a whole session. *)
Lemma runs_invariant (P : files -> Prop) pl :
  (forall today now w b fs fs',
     P fs -> run_page pl today now w b fs = Some fs' -> P fs') ->
  forall acts fs fs', P fs -> runs_page pl acts fs = Some fs' -> P fs'.
Proof.
  intros Hstep acts. induction acts as [|a acts IH]; intros fs fs' HP.
  - by intros [= <-].
  - cbn [runs].
    destruct (run_page pl (a_today a) (a_now a) (a_widgets a) (a_button a) fs)
      as [fs1|] eqn:E; [|discriminate].
    cbn [mbind option_bind]. apply IH. eauto.
Qed.

Lemma add_log_as_append w df fs :
  add_log pd w df fs =
  save_progress pd
    (concat (as_cells df)
       (of_records progress_columns
          ((fun r => set_date (DateObj (date r)) r) <$>
             [Entry (log_date w) (Some (w_module w)) (w_minutes w)
                (Some (w_note w))]))) fs.
Proof. reflexivity. Qed.

Lemma quick_rows_as_append pl ld :
  quick_rows pl ld =
  (fun r => set_date (DateObj (date r)) r) <$>
    ((fun kv => Entry ld (Some kv.1) kv.2 (Some "planned"%string)) <$>
       List.filter (fun kv => 0 <? kv.2) (map_to_list (planned_minutes_per_day pl))).
Proof. unfold quick_rows. by rewrite <- list_fmap_compose. Qed.

Lemma quick_add_as_append pl w df fs :
  quick_add pd pl w df fs =
  save_progress pd
    (concat (as_cells df) (of_records progress_columns (quick_rows pl (log_date w)))) fs.
Proof. reflexivity. Qed.

End Page.
End PageFacts2.

Module PageFacts3.
Import Frames Ledgers Engine Handlers Views Props LedgerProps LedgerFacts HandlerFacts
  PageFacts PageFacts2 Session.

Lemma has_label_In c cols : has_label c cols = true <-> In c cols.
Proof.
  unfold has_label. rewrite existsb_exists. split.
  - intros (x & Hx & ->%String.eqb_eq). done.
  - intros H. exists c. split; [done | apply String.eqb_refl].
Qed.

(** The labels of a concatenation hold every label of both frames, so a
    second concatenation with the same labels adds none. *)
Lemma concat_labels_again (a b : list string) :
  List.filter (fun c => negb (has_label c
       (a ++ List.filter (fun c => negb (has_label c a)) b))) b = [].
Proof.
  assert (forall l, (forall c, In c l -> In c b) ->
    List.filter (fun c => negb (has_label c
       (a ++ List.filter (fun c => negb (has_label c a)) b))) l = []) as H.
  { induction l as [|c l IH]; intros Hl; [done|]. cbn [List.filter].
    assert (has_label c (a ++ List.filter (fun c => negb (has_label c a)) b) = true)
      as ->.
    { apply has_label_In, in_app_iff.
      destruct (has_label c a) eqn:E; [left; by apply has_label_In|].
      right. apply filter_In. split; [apply Hl; by left | by rewrite E]. }
    cbn. apply IH. intros c' Hc'. apply Hl. by right. }
  by apply H.
Qed.

Lemma filter_negb_twice {A} (f : A -> bool) (l : list A) :
  List.filter f (List.filter f l) = List.filter f l.
Proof.
  induction l as [|x l IH]; [done|]. cbn [List.filter].
  destruct (f x) eqn:E; cbn [List.filter]; rewrite ?E, IH; done.
Qed.

Lemma upsert_done_weeks w d n ms :
  done_weeks (upsert w d n ms) =
  List.filter (fun x => negb (x =? w)) (done_weeks ms) ++ [w].
Proof.
  unfold done_weeks. rewrite upsert_rows, fmap_app. f_equal.
  induction (rows ms) as [|r rs IH]; [done|]. cbn [List.filter fmap list_fmap].
  destruct (week r =? w); cbn [negb List.filter fmap list_fmap]; by rewrite <- IH.
Qed.

Lemma upsert_NoDup w d n ms :
  NoDup (done_weeks ms) -> NoDup (done_weeks (upsert w d n ms)).
Proof.
  intros H. rewrite upsert_done_weeks. apply NoDup_app. split; [|split].
  - apply NoDup_ListNoDup, List.NoDup_filter, NoDup_ListNoDup, H.
  - intros x Hx ->%list_elem_of_singleton.
    apply list_elem_of_In, filter_In in Hx as [_ Hx].
    by rewrite Z.eqb_refl in Hx.
  - apply NoDup_singleton.
Qed.

Section Page.
Variable pd : pandas.
Variable T : Type.
Variable parse_timestamp : string -> option T.
Variable show_timestamp : option T -> string.
Variable strip : string -> string.

Lemma save_progress_length df fs fs' :
  save_progress pd df fs = Some fs' ->
  length (progress_rows fs') = length (rows df).
Proof.
  intros (rs & Hrs & ->)%save_progress_inv. unfold progress_rows. cbn.
  symmetry. by eapply length_mapM.
Qed.

Lemma load_reflections_length fs :
  length (rows (load_reflections T parse_timestamp fs)) = length (reflection_rows fs).
Proof.
  unfold load_reflections, reflection_rows, len.
  destruct (reflections_csv fs) as [t|]; [|done].
  destruct (Z.eqb_spec (Z.of_nat (length (rows t))) 0) as [Hz|_]; cbn.
  - lia.
  - by rewrite length_map.
Qed.

Lemma load_reflections_columns fs :
  columns (load_reflections T parse_timestamp fs) =
  match reflections_csv fs with
  | Some t => columns t
  | None => reflections_columns
  end.
Proof.
  unfold load_reflections.
  destruct (reflections_csv fs) as [t|]; [|done]. by destruct (len t =? 0).
Qed.

End Page.
End PageFacts3.

Module PageExtras.
Import Frames Ledgers Engine Handlers Views Props PageProps LedgerProps LedgerFacts
  HandlerFacts SumFacts PageFacts PageFacts2 PageFacts3 Session.

(** X9. The last deliverable submission for a week wins on the whole table:
    submitting for a week and then again for the same week leaves the frame,
    labels and rows, that the second submission alone would have left. *)
Theorem upsert_last_wins (ms : DataFrame milestone) (w : Z) (d1 d2 n1 n2 : string) :
  upsert w d2 n2 (upsert w d1 n1 ms) = upsert w d2 n2 ms.
Proof.
  unfold upsert, concat, select, of_records. cbn [columns rows]. f_equal.
  - by rewrite concat_labels_again, app_nil_r.
  - f_equal. rewrite List.filter_app, filter_negb_twice. cbn [List.filter].
    rewrite Z.eqb_refl. cbn. by rewrite app_nil_r.
Qed.

Section Page.
Variable pd : pandas.
Variable T : Type.
Variable parse_timestamp : string -> option T.
Variable show_timestamp : option T -> string.
Variable strip : string -> string.

Local Notation "'run_page'" :=
  (run pd T parse_timestamp show_timestamp strip).
Local Notation "'runs_page'" :=
  (runs pd T parse_timestamp show_timestamp strip).

(** X8. The week is a key of the milestone table: when the table has at most
    one row per week, it still has after any session, whatever the buttons
    pressed. *)
Theorem session_keeps_one_row_per_week (pl : plan) (acts : list action)
    (fs fs' : files) :
  NoDup (done_weeks (load_milestones fs)) ->
  runs_page pl acts fs = Some fs' ->
  NoDup (done_weeks (load_milestones fs')).
Proof.
  apply (runs_invariant pd T parse_timestamp show_timestamp strip
           (fun fs => NoDup (done_weeks (load_milestones fs)))).
  clear. intros today now w b fs fs' HP Hrun.
  destruct (run_cases _ _ _ _ _ _ _ _ _ _ _ _ Hrun) as (df & cw & _ & _ & Hb).
  destruct b.
  - by subst.
  - rewrite add_log_as_append in Hb.
    apply save_progress_inv in Hb as (rs & _ & ->). exact HP.
  - rewrite quick_add_as_append in Hb.
    apply save_progress_inv in Hb as (rs & _ & ->). exact HP.
  - destruct (deliverable_done w); subst; [|done].
    rewrite load_save_milestones. by apply upsert_NoDup.
  - subst. exact HP.
Qed.

(** X10. "Add log" appends: on a progress file of ISO dates in range, with a
    log date in range, the run's handler succeeds and leaves a file with one
    more row: the dates and the minutes of the file, in order, then the ISO
    log date and the widget's minutes.  The module and note columns are the
    file's cells and then the widget's value, as the whole column reads
    back.  The other two files are left alone.  With a log date out of the
    range of pandas timestamps the handler raises and writes nothing. *)
Theorem add_log_appends_one_row (w : widgets) (fs : files) :
  canonical_progress pd fs ->
  (representable pd (log_date w) 0 = true ->
   exists df fs',
     load_progress pd fs = Some df /\
     add_log pd w df fs = Some fs' /\
     date <$> progress_rows fs' =
       (date <$> progress_rows fs) ++ [PyDate.isoformat (log_date w)] /\
     minutes <$> progress_rows fs' = (minutes <$> progress_rows fs) ++ [w_minutes w] /\
     module <$> progress_rows fs' =
       read_back_column pd ((module <$> progress_rows fs) ++ [Some (w_module w)]) /\
     note <$> progress_rows fs' =
       read_back_column pd ((note <$> progress_rows fs) ++ [Some (w_note w)]) /\
     milestones_csv fs' = milestones_csv fs /\
     reflections_csv fs' = reflections_csv fs) /\
  (representable pd (log_date w) 0 = false ->
   forall df, add_log pd w df fs = None).
Proof.
  intros Hcan. split.
  - intros Hr.
    destruct (append_progress pd fs
                [Entry (log_date w) (Some (w_module w)) (w_minutes w) (Some (w_note w))]
                Hcan)
      as (df & fs' & Hload & Hsave & Hd & Hm & Hmod & Hnote & Hms & Hrf & _).
    { by constructor. }
    exists df, fs'. rewrite add_log_as_append. done.
  - intros Hr df. rewrite add_log_as_append.
    destruct (save_progress pd _ fs) as [fs'|] eqn:Hsave; [|done].
    apply save_progress_rows in Hsave as (rs & _ & Hrs).
    cbn [concat of_records rows fmap list_fmap] in Hrs.
    apply Forall2_app_inv_l in Hrs as (rs1 & rs2 & _ & Hnew & _).
    apply Forall2_cons_inv_l in Hnew as (x & rs3 & (d & Hd & _) & _).
    cbn [date] in Hd. apply to_date_obj in Hd as [<- Hd]. congruence.
Qed.

(** X11. "Quick add" appends one row per module whose planned minutes per
    day are positive, with these minutes, the ISO log date and the note
    "planned"; a module planned at zero or less gets no row and no module
    gets two.  The dates and the minutes of the file come first, as they
    were; the module and note columns are the file's cells and then the new
    ones, as the whole column reads back.  The minutes added are the sum of
    the positive planned minutes. *)
Theorem quick_add_appends_planned (pl : plan) (w : widgets) (fs : files) :
  canonical_progress pd fs ->
  representable pd (log_date w) 0 = true ->
  exists df fs' picked,
    load_progress pd fs = Some df /\
    quick_add pd pl w df fs = Some fs' /\
    (forall m v, (m, v) ∈ picked <->
       planned_minutes_per_day pl !! m = Some v /\ 0 < v) /\
    NoDup picked.*1 /\
    date <$> progress_rows fs' =
      (date <$> progress_rows fs) ++ ((fun _ => PyDate.isoformat (log_date w)) <$> picked) /\
    minutes <$> progress_rows fs' = (minutes <$> progress_rows fs) ++ picked.*2 /\
    module <$> progress_rows fs' =
      read_back_column pd ((module <$> progress_rows fs) ++ (Some <$> picked.*1)) /\
    note <$> progress_rows fs' =
      read_back_column pd
        ((note <$> progress_rows fs) ++ ((fun _ => Some "planned"%string) <$> picked)) /\
    py_sum picked.*2 =
      py_sum (List.filter (fun v => 0 <? v) (values (planned_minutes_per_day pl))).
Proof.
  intros Hcan Hr.
  set (p := planned_minutes_per_day pl).
  set (picked := List.filter (fun kv : string * Z => 0 <? kv.2) (map_to_list p)).
  destruct (append_progress pd fs
              ((fun kv => Entry (log_date w) (Some kv.1) kv.2 (Some "planned"%string))
                 <$> picked) Hcan)
    as (df & fs' & Hload & Hsave & Hd & Hm & Hmod & Hnote & _).
  { apply Forall_fmap, Forall_true. intros kv. exact Hr. }
  rewrite <- !list_fmap_compose in Hd, Hm, Hmod, Hnote.
  exists df, fs', picked.
  split; [done|]. split.
  { by rewrite quick_add_as_append, quick_rows_as_append. }
  split; [|split; [|split; [exact Hd|split; [exact Hm|split; [|split; [exact Hnote|]]]]]].
  - intros m v. subst picked. rewrite list_elem_of_In, filter_In, <- list_elem_of_In.
    rewrite elem_of_map_to_list. cbn. by rewrite Z.ltb_lt.
  - assert (NoDup (map_to_list p).*1) as Hnd by apply NoDup_fst_map_to_list.
    subst picked. clear -Hnd. revert Hnd. generalize (map_to_list p).
    induction l as [|[m v] l IH]; intros Hnd; [constructor|].
    cbn [fmap list_fmap] in Hnd. apply NoDup_cons in Hnd as [Hm Hnd].
    cbn [List.filter]. destruct (0 <? (m, v).2); [|by apply IH].
    cbn [fmap list_fmap]. apply NoDup_cons. split; [|by apply IH].
    cbn. intros Hin. apply Hm.
    apply list_elem_of_fmap in Hin as ([m' v'] & Heq & Hin). cbn in Heq. subst m'.
    apply list_elem_of_fmap. exists (m, v'). split; [done|].
    apply list_elem_of_In, filter_In in Hin as [Hin _]. by apply list_elem_of_In.
  - rewrite Hmod. by rewrite <- list_fmap_compose.
  - unfold values. subst picked. f_equal.
    clear. generalize (map_to_list p).
    induction l as [|[m v] l IH]; [done|].
    cbn [List.filter fmap list_fmap snd].
    destruct (0 <? v); cbn [List.filter fmap list_fmap]; [f_equal|]; exact IH.
Qed.

Lemma progress_saved_more fs fs1 fs2 df new :
  (length (progress_rows fs) <= length (progress_rows fs1))%nat /\
  (length (reflection_rows fs) <= length (reflection_rows fs1))%nat /\
  (forall wk, wk ∈ done_weeks (load_milestones fs) ->
              wk ∈ done_weeks (load_milestones fs1)) /\
  (is_Some (progress_csv fs) -> is_Some (progress_csv fs1)) /\
  (is_Some (milestones_csv fs) -> is_Some (milestones_csv fs1)) /\
  (is_Some (reflections_csv fs) -> is_Some (reflections_csv fs1)) ->
  length (rows df) = length (progress_rows fs1) ->
  save_progress pd (concat (as_cells df) new) fs1 = Some fs2 ->
  (length (progress_rows fs) <= length (progress_rows fs2))%nat /\
  (length (reflection_rows fs) <= length (reflection_rows fs2))%nat /\
  (forall wk, wk ∈ done_weeks (load_milestones fs) ->
              wk ∈ done_weeks (load_milestones fs2)) /\
  (is_Some (progress_csv fs) -> is_Some (progress_csv fs2)) /\
  (is_Some (milestones_csv fs) -> is_Some (milestones_csv fs2)) /\
  (is_Some (reflections_csv fs) -> is_Some (reflections_csv fs2)).
Proof.
  intros (Hp & Hr & Hw & Hfp & Hfm & Hfr) Hload Hb.
  pose proof (save_progress_length _ _ _ _ Hb) as Hlen.
  cbn [concat as_cells rows] in Hlen. rewrite length_app, length_map in Hlen.
  apply save_progress_inv in Hb as (rs & _ & ->).
  unfold progress_rows at 1 in Hlen. cbn [progress_csv rows] in Hlen.
  unfold reflection_rows, load_milestones in *.
  unfold progress_rows at 2. cbn [progress_csv milestones_csv reflections_csv rows].
  split; [lia|]. split; [done|]. split; [done|]. split; [eauto|]. split; done.
Qed.

(** X12. No run deletes from a ledger: after any session the progress file
    and the reflection file have at least as many rows as before, every week
    marked done is still marked done, and a file that existed still
    exists. *)
Theorem session_never_deletes (pl : plan) (acts : list action) (fs fs' : files) :
  runs_page pl acts fs = Some fs' ->
  (length (progress_rows fs) <= length (progress_rows fs'))%nat /\
  (length (reflection_rows fs) <= length (reflection_rows fs'))%nat /\
  (forall wk, wk ∈ done_weeks (load_milestones fs) ->
              wk ∈ done_weeks (load_milestones fs')) /\
  (is_Some (progress_csv fs) -> is_Some (progress_csv fs')) /\
  (is_Some (milestones_csv fs) -> is_Some (milestones_csv fs')) /\
  (is_Some (reflections_csv fs) -> is_Some (reflections_csv fs')).
Proof.
  apply (runs_invariant pd T parse_timestamp show_timestamp strip
    (fun fs1 =>
       (length (progress_rows fs) <= length (progress_rows fs1))%nat /\
       (length (reflection_rows fs) <= length (reflection_rows fs1))%nat /\
       (forall wk, wk ∈ done_weeks (load_milestones fs) ->
                   wk ∈ done_weeks (load_milestones fs1)) /\
       (is_Some (progress_csv fs) -> is_Some (progress_csv fs1)) /\
       (is_Some (milestones_csv fs) -> is_Some (milestones_csv fs1)) /\
       (is_Some (reflections_csv fs) -> is_Some (reflections_csv fs1)))); [|done].
  clear acts fs'. intros today now w b fs1 fs2 HP Hrun.
  destruct (run_cases _ _ _ _ _ _ _ _ _ _ _ _ Hrun) as (df & cw & Hload & _ & Hb).
  apply load_progress_length in Hload.
  pose proof HP as (Hp & Hr & Hw & Hfp & Hfm & Hfr).
  destruct b.
  - by subst.
  - rewrite add_log_as_append in Hb.
    exact (progress_saved_more _ _ _ _ _ HP Hload Hb).
  - rewrite quick_add_as_append in Hb.
    exact (progress_saved_more _ _ _ _ _ HP Hload Hb).
  - destruct (deliverable_done w); subst; [|done].
    rewrite load_save_milestones. unfold progress_rows, reflection_rows in *. cbn.
    repeat split; eauto. intros wk Hwk. by apply upsert_keeps_done, Hw.
  - subst fs2. unfold save_reflection.
    split; [exact Hp|]. split.
    { unfold reflection_rows at 2.
      cbn [save_reflections reflections_csv concat rows of_records].
      rewrite length_app, length_map, load_reflections_length. lia. }
    split; [exact Hw|]. split; [exact Hfp|]. split; [exact Hfm|].
    intros _. by eexists.
Qed.


(** X13. Each button writes its own ledger only: a run without a button
    leaves the files as they are, "Add log" and "Quick add" leave the
    milestone and reflection files, the deliverable form leaves the progress
    and reflection files, and "Save reflection" leaves the progress and
    milestone files. *)
Theorem run_writes_one_ledger (pl : plan) (today : PyDate.date) (now : string)
    (w : widgets) (b : button) (fs fs' : files) :
  run_page pl today now w b fs = Some fs' ->
  match b with
  | NoButton => fs' = fs
  | AddLog | QuickAdd =>
      milestones_csv fs' = milestones_csv fs /\ reflections_csv fs' = reflections_csv fs
  | SaveDeliverableStatus =>
      progress_csv fs' = progress_csv fs /\ reflections_csv fs' = reflections_csv fs
  | SaveReflection =>
      progress_csv fs' = progress_csv fs /\ milestones_csv fs' = milestones_csv fs
  end.
Proof.
  intros Hrun.
  destruct (run_cases _ _ _ _ _ _ _ _ _ _ _ _ Hrun) as (df & cw & _ & _ & Hb).
  destruct b.
  - done.
  - rewrite add_log_as_append in Hb. by apply save_progress_inv in Hb as (rs & _ & ->).
  - rewrite quick_add_as_append in Hb. by apply save_progress_inv in Hb as (rs & _ & ->).
  - subst. by destruct (deliverable_done w).
  - by subst.
Qed.

(** X14. The page never writes a ledger it cannot read back: when the three
    files carry their labels and the progress file holds ISO dates in range
    (as with no file at all), then after any session they still do, and
    [load_progress] succeeds on what the session left. *)
Theorem session_keeps_ledgers_loadable (pl : plan) (acts : list action)
    (fs fs' : files) :
  schema_ok fs -> canonical_progress pd fs ->
  runs_page pl acts fs = Some fs' ->
  schema_ok fs' /\ canonical_progress pd fs' /\
  is_Some (load_progress pd fs').
Proof.
  intros Hs Hc Hruns.
  assert (schema_ok fs' /\ canonical_progress pd fs') as [Hs' Hc'].
  { revert Hruns.
    apply (runs_invariant pd T parse_timestamp show_timestamp strip
             (fun fs => schema_ok fs /\ canonical_progress pd fs));
      [|done].
    clear. intros today now w b fs fs' [(Hp & Hm & Hr) Hc] Hrun.
    destruct (run_cases _ _ _ _ _ _ _ _ _ _ _ _ Hrun) as (df & cw & Hload & _ & Hb).
    assert (columns df = progress_columns) as Hdf.
    { rewrite (load_progress_columns _ _ _ Hload).
      by destruct (progress_csv fs). }
    assert (forall (news : list (entry PyDate.date)) fs2,
              save_progress pd
                (concat (as_cells df)
                   (of_records progress_columns
                      ((fun r => set_date (DateObj (date r)) r) <$> news))) fs = Some fs2 ->
              schema_ok fs2 /\ canonical_progress pd fs2) as Hsave.
    { intros news fs2 Hsv. split.
      - apply save_progress_inv in Hsv as (rs & _ & ->).
        split; [|done]. cbn. rewrite Hdf. by destruct news.
      - rewrite concat_as_cells in Hsv. by eapply save_date_objects_canonical. }
    destruct b.
    - by subst.
    - rewrite add_log_as_append in Hb. by eapply Hsave.
    - rewrite quick_add_as_append, quick_rows_as_append in Hb. by eapply Hsave.
    - destruct (deliverable_done w); subst; [|done].
      split; [|done]. split; [done|]. split; [|done]. cbn.
      unfold load_milestones. destruct (milestones_csv fs) as [t|]; [|done].
      by rewrite Hm.
    - subst. split; [|done]. split; [done|]. split; [done|]. cbn.
      rewrite load_reflections_columns.
      destruct (reflections_csv fs) as [t|]; [by rewrite Hr | done]. }
  split; [done|]. split; [done|].
  destruct (load_canonical pd fs' Hc') as (df & -> & _). by eexists.
Qed.

End Page.

Lemma session_keeps_one_row_per_week_witness :
  exists fs',
    runs ns_pandas string Some (default ""%string) id example_plan example_session
      no_files = Some fs' /\
    NoDup (done_weeks (load_milestones fs')).
Proof.
  destruct (runs ns_pandas string Some (default ""%string) id example_plan
              example_session no_files) as [fs'|] eqn:Hruns;
    [|vm_compute in Hruns; discriminate].
  exists fs'. split; [reflexivity|].
  apply (session_keeps_one_row_per_week ns_pandas string Some (default ""%string) id
           example_plan example_session no_files fs'); [constructor | exact Hruns].
Defined.

Lemma logged_files_canonical : canonical_progress ns_pandas logged_files.
Proof.
  repeat constructor.
  - by exists (PyDate.Date 2024 1 8 I).
  - by exists (PyDate.Date 2024 1 9 I).
Qed.

Lemma add_log_appends_one_row_witness :
  canonical_progress ns_pandas logged_files /\
  exists df fs',
    load_progress ns_pandas logged_files = Some df /\
    add_log ns_pandas example_widgets df logged_files = Some fs' /\
    date <$> progress_rows fs' = ["2024-01-08"; "2024-01-09"; "2024-01-10"]%string /\
    minutes <$> progress_rows fs' = [25; 40; 30] /\
    module <$> progress_rows fs' = [Some "stats"; Some "algo"; Some "stats"]%string /\
    note <$> progress_rows fs' = [None; Some "chapter 3"; None]%string.
Proof.
  split; [exact logged_files_canonical|].
  destruct (add_log_appends_one_row ns_pandas example_widgets logged_files
              logged_files_canonical) as [H _].
  destruct (H eq_refl) as (df & fs' & Hload & Hadd & Hd & Hm & Hmod & Hnote & _).
  exists df, fs'. split; [exact Hload|]. split; [exact Hadd|].
  split; [exact Hd|]. split; [exact Hm|]. split.
  - rewrite Hmod. vm_compute. reflexivity.
  - rewrite Hnote. vm_compute. reflexivity.
Defined.

Lemma quick_add_appends_planned_witness :
  canonical_progress ns_pandas logged_files /\
  exists df fs',
    load_progress ns_pandas logged_files = Some df /\
    quick_add ns_pandas example_plan example_widgets df logged_files = Some fs' /\
    py_sum (minutes <$> progress_rows fs') = 25 + 40 + 75.
Proof.
  split; [exact logged_files_canonical|].
  destruct (quick_add_appends_planned ns_pandas example_plan example_widgets
              logged_files logged_files_canonical eq_refl)
    as (df & fs' & picked & Hload & Hadd & _ & _ & _ & Hm & _ & _ & Hsum).
  exists df, fs'. split; [exact Hload|]. split; [exact Hadd|].
  rewrite Hm, SumFacts.py_sum_app, Hsum. vm_compute. reflexivity.
Defined.

Lemma session_never_deletes_witness :
  exists fs',
    runs ns_pandas string Some (default ""%string) id example_plan example_session
      example_files = Some fs' /\
    1 ∈ done_weeks (load_milestones fs') /\
    is_Some (milestones_csv fs').
Proof.
  destruct (runs ns_pandas string Some (default ""%string) id example_plan
              example_session example_files) as [fs'|] eqn:Hruns;
    [|vm_compute in Hruns; discriminate].
  exists fs'. split; [reflexivity|].
  destruct (session_never_deletes ns_pandas string Some (default ""%string) id
              example_plan example_session example_files fs' Hruns)
    as (_ & _ & Hw & _ & Hm & _).
  split; [apply Hw; left | apply Hm; by eexists].
Defined.

Lemma run_writes_one_ledger_witness :
  exists fs',
    run ns_pandas string Some (default ""%string) id example_plan
      (PyDate.Date 2024 1 10 I) "2024-01-10T09:00:00" example_widgets AddLog
      example_files = Some fs' /\
    milestones_csv fs' = milestones_csv example_files /\
    reflections_csv fs' = reflections_csv example_files.
Proof.
  destruct (run ns_pandas string Some (default ""%string) id example_plan
              (PyDate.Date 2024 1 10 I) "2024-01-10T09:00:00" example_widgets AddLog
              example_files) as [fs'|] eqn:Hrun;
    [|vm_compute in Hrun; discriminate].
  exists fs'. split; [reflexivity|].
  exact (run_writes_one_ledger ns_pandas string Some (default ""%string) id
           example_plan (PyDate.Date 2024 1 10 I) "2024-01-10T09:00:00"
           example_widgets AddLog example_files fs' Hrun).
Defined.

Lemma session_keeps_ledgers_loadable_witness :
  exists fs',
    runs ns_pandas string Some (default ""%string) id example_plan example_session
      no_files = Some fs' /\
    schema_ok fs' /\ is_Some (load_progress ns_pandas fs').
Proof.
  destruct (runs ns_pandas string Some (default ""%string) id example_plan
              example_session no_files) as [fs'|] eqn:Hruns;
    [|vm_compute in Hruns; discriminate].
  exists fs'. split; [reflexivity|].
  destruct (session_keeps_ledgers_loadable ns_pandas string Some (default ""%string) id
              example_plan example_session no_files fs'
              (conj I (conj I I)) (List.Forall_nil _) Hruns) as (Hs & _ & Hl).
  split; [exact Hs | exact Hl].
Defined.

End PageExtras.

(* ===================================================================== *)
(** ** More on the feed reader and the views *)
(* ===================================================================== *)

Module FeedFacts.
Import Feed Views.

Lemma slice_to_length {A} (n : Z) (xs : list A) :
  Z.of_nat (length (slice_to n xs)) =
  if 0 <=? n then Z.min n (Z.of_nat (length xs))
  else Z.max 0 (Z.of_nat (length xs) + n).
Proof.
  unfold slice_to. destruct (0 <=? n) eqn:E; rewrite length_firstn.
  - apply Z.leb_le in E. lia.
  - apply Z.leb_gt in E. lia.
Qed.

Lemma firstn_min {A} (k : nat) (xs : list A) :
  firstn k xs = firstn (k `min` length xs) xs.
Proof.
  revert k. induction xs as [|x xs IH]; intros [|k]; cbn; try done.
  by rewrite <- IH.
Qed.

Lemma slice_to_prefix {A} (n : Z) (xs : list A) :
  slice_to n xs = take (length (slice_to n xs)) xs.
Proof.
  unfold slice_to. destruct (0 <=? n); rewrite length_firstn; apply firstn_min.
Qed.

Lemma str_or_nonempty a b : b <> ""%string -> str_or a b <> ""%string.
Proof.
  unfold str_or. destruct (String.eqb_spec a ""); done.
Qed.

End FeedFacts.

Module FeedExtras.
Import Feed FeedProps Views FeedFacts.

Section FetchSpec.

Variable response : Type.
Variable requests_get : string -> Z -> outcome response.
Variable raise_for_status : response -> outcome unit.
Variable response_text : response -> string.
Variable feedparser_parse : string -> outcome (list feed_entry).
Variable strip : string -> string.

Local Notation "'body'" := (fetch_body response requests_get raise_for_status
                          response_text feedparser_parse strip).
Local Notation "'fetch'" := (fetch_rss response requests_get raise_for_status
                           response_text feedparser_parse strip).

(** X19. [fetch_rss] returns a pair whatever happens in its [try] block.
    The block raises an exception [ex] exactly when the request, the status
    check or the parser raises it, and the pair is then the empty list and
    [str(ex)], which is not empty when [str(ex)] is not.  When the block
    completes the pair is the items of the entries [entries[:max_items]],
    in feed order, and no error; for [max_items >= 0] these are the first
    [max_items] entries. *)
Theorem fetch_rss_spec (url : string) (max_items timeout : Z) :
  (forall ex, body url max_items timeout = Raise ex ->
     fetch url max_items timeout = ([], Some (str_ex ex))) /\
  (forall ex, body url max_items timeout = Raise ex -> str_ex ex <> ""%string ->
     exists msg, fetch url max_items timeout = ([], Some msg) /\ msg <> ""%string) /\
  (forall items, body url max_items timeout = Return items ->
     fetch url max_items timeout = (items, None)) /\
  (forall ex, body url max_items timeout = Raise ex <->
     requests_get url timeout = Raise ex \/
     exists r, requests_get url timeout = Return r /\
       (raise_for_status r = Raise ex \/
        raise_for_status r = Return tt /\
        feedparser_parse (response_text r) = Raise ex)) /\
  (forall r entries,
     requests_get url timeout = Return r ->
     raise_for_status r = Return tt ->
     feedparser_parse (response_text r) = Return entries ->
     fetch url max_items timeout =
       (List.map (make_item strip) (slice_to max_items entries), None) /\
     (0 <= max_items ->
      slice_to max_items entries = firstn (Z.to_nat max_items) entries)).
Proof.
  unfold fetch_rss, fetch_body.
  destruct (requests_get url timeout) as [r | ex0]; cbn [mbind outcome_bind].
  2:{ split; [|split; [|split; [|split]]].
      - by intros ex [= <-].
      - intros ex [= <-] Hne. by eexists.
      - intros items [=].
      - intros ex. split; [intros [= <-]; by left|].
        intros [H | (r & H & _)]; congruence.
      - intros r entries [=]. }
  destruct (raise_for_status r) as [[] | ex0] eqn:Hst; cbn [mbind outcome_bind].
  2:{ split; [|split; [|split; [|split]]].
      - by intros ex [= <-].
      - intros ex [= <-] Hne. by eexists.
      - intros items [=].
      - intros ex. split.
        + intros [= <-]. right. exists r. split; [done | by left].
        + intros [H | (r' & [= <-] & [H | [H _]])]; congruence.
      - intros r' entries [= <-] H. congruence. }
  destruct (feedparser_parse (response_text r)) as [entries | ex0] eqn:Hparse;
    cbn [mbind outcome_bind mret outcome_ret].
  2:{ split; [|split; [|split; [|split]]].
      - by intros ex [= <-].
      - intros ex [= <-] Hne. by eexists.
      - intros items [=].
      - intros ex. split.
        + intros [= <-]. right. exists r. split; [done | by right].
        + intros [H | (r' & [= <-] & [H | [_ H]])]; congruence.
      - intros r' entries [= <-] _ H. congruence. }
  split; [|split; [|split; [|split]]].
  - intros ex [=].
  - intros ex [=].
  - by intros items [= <-].
  - intros ex. split; [intros [=]|].
    intros [H | (r' & [= <-] & [H | [_ H]])]; congruence.
  - intros r' entries' [= <-] _ H. rewrite Hparse in H. injection H as <-.
    split; [reflexivity|].
    intros Hpos. unfold slice_to. by destruct (Z.leb_spec 0 max_items); [|lia].
Qed.

End FetchSpec.

Lemma fetch_rss_spec_witness :
  fetch_rss unit (failing_get (Exn "timed out")) (fun _ => Return tt)
    (fun _ => ""%string) (parse_to []) id "http://unreachable.invalid/feed" 10 8 =
    ([], Some "timed out"%string) /\
  fetch_rss unit answering_get (fun _ => Return tt)
    (fun _ => ""%string) (parse_to example_feed) id "http://feed.example/rss" 2 8 =
    ([Item "A" "http://a" "Mon"; Item "" "http://b" "Tue"]%string, None).
Proof.
  split.
  - destruct (fetch_rss_spec unit (failing_get (Exn "timed out")) (fun _ => Return tt)
                (fun _ => ""%string) (parse_to []) id
                "http://unreachable.invalid/feed" 10 8) as (H & _).
    exact (H (Exn "timed out") eq_refl).
  - destruct (fetch_rss_spec unit answering_get (fun _ => Return tt)
                (fun _ => ""%string) (parse_to example_feed) id
                "http://feed.example/rss" 2 8) as (_ & _ & _ & _ & H).
    destruct (H tt example_feed eq_refl eq_refl eq_refl) as [-> _]. reflexivity.
Defined.

Section Fetch.

Variable response : Type.
Variable requests_get : string -> Z -> outcome response.
Variable raise_for_status : response -> outcome unit.
Variable response_text : response -> string.
Variable feedparser_parse : string -> outcome (list feed_entry).
Variable strip : string -> string.

Local Notation "'body'" := (fetch_body response requests_get raise_for_status
                              response_text feedparser_parse strip).
Local Notation "'fetch'" := (fetch_rss response requests_get raise_for_status
                               response_text feedparser_parse strip).

(** X15. [fetch_rss] never returns more than [max_items] items when
    [max_items] is not negative.  On a parsed feed the items are those of a
    prefix of the entries, in feed order: [min(max_items, n)] of the [n]
    entries, and for a negative [max_items] all but the last [-max_items]
    (none if there are fewer). *)
Theorem fetch_rss_item_count (url : string) (max_items timeout : Z) :
  (0 <= max_items ->
   Z.of_nat (length (fetch url max_items timeout).1) <= max_items) /\
  (forall r entries,
     requests_get url timeout = Return r ->
     raise_for_status r = Return tt ->
     feedparser_parse (response_text r) = Return entries ->
     (fetch url max_items timeout).2 = None /\
     Z.of_nat (length (fetch url max_items timeout).1) =
       (if 0 <=? max_items then Z.min max_items (Z.of_nat (length entries))
        else Z.max 0 (Z.of_nat (length entries) + max_items)) /\
     (fetch url max_items timeout).1 =
       make_item strip <$> take (length (fetch url max_items timeout).1) entries).
Proof.
  unfold fetch_rss, fetch_body.
  destruct (requests_get url timeout) as [r | ex0]; cbn [mbind outcome_bind];
    [|split; [cbn; lia | intros ? ? [=]]].
  destruct (raise_for_status r) as [[] | ex0] eqn:Hst; cbn [mbind outcome_bind];
    [|split; [cbn; lia | intros ? ? [= <-] H; congruence]].
  destruct (feedparser_parse (response_text r)) as [entries | ex0] eqn:Hp;
    cbn [mbind outcome_bind mret outcome_ret];
    [|split; [cbn; lia | intros ? ? [= <-] _ H; congruence]].
  cbn [fst snd]. split.
  - intros Hpos. rewrite length_map, slice_to_length.
    destruct (Z.leb_spec 0 max_items); lia.
  - intros r' entries' [= <-] _ H. rewrite Hp in H. injection H as <-.
    split; [done|]. rewrite length_map. split; [apply slice_to_length|].
    change (List.map (make_item strip) (slice_to max_items entries))
      with (make_item strip <$> slice_to max_items entries).
    f_equal. apply slice_to_prefix.
Qed.

(** X16. What the third tab shows for a feed: after a fetch that raised an
    exception with a message, one warning with that message and no entry;
    after one that raised an exception with an empty message, nothing at
    all, not even a warning; after a fetch that went through, one line per
    item, each with a title that is not empty and, when the URL of the feed
    is not empty, a link that is not empty. *)
Theorem render_rss_of_fetch (url : string) (max_items timeout : Z) :
  (forall ex, body url max_items timeout = Raise ex -> str_ex ex <> ""%string ->
     render_rss url (fetch url max_items timeout) = [RssWarning (str_ex ex)]) /\
  (forall ex, body url max_items timeout = Raise ex -> str_ex ex = ""%string ->
     render_rss url (fetch url max_items timeout) = []) /\
  (forall items, body url max_items timeout = Return items ->
     length (render_rss url (fetch url max_items timeout)) = length items /\
     forall line, line ∈ render_rss url (fetch url max_items timeout) ->
       exists t l p, line = RssLine t l p /\ t <> ""%string /\
                     (url <> ""%string -> l <> ""%string)).
Proof.
  unfold fetch_rss. split; [|split].
  - intros ex -> Hne. unfold render_rss. cbn [snd].
    by destruct (str_ex ex).
  - intros ex -> He. unfold render_rss. cbn [fst snd]. by rewrite He.
  - intros items ->. unfold render_rss. cbn [fst snd]. split.
    + by rewrite length_map.
    + intros line Hline. apply list_elem_of_In, in_map_iff in Hline as (e & <- & _).
      eexists _, _, _. split; [done|]. split.
      * by apply str_or_nonempty.
      * apply str_or_nonempty.
Qed.

End Fetch.

Lemma fetch_rss_item_count_witness :
  Z.of_nat (length (fetch_rss unit answering_get (fun _ => Return tt)
                      (fun _ => ""%string) (parse_to example_feed) id
                      "http://feed.example/rss" 2 8).1) <= 2 /\
  Z.of_nat (length (fetch_rss unit answering_get (fun _ => Return tt)
                      (fun _ => ""%string) (parse_to example_feed) id
                      "http://feed.example/rss" (-1) 8).1) = Z.max 0 (3 + -1).
Proof.
  split.
  - apply (fetch_rss_item_count unit answering_get (fun _ => Return tt)
             (fun _ => ""%string) (parse_to example_feed) id
             "http://feed.example/rss" 2 8). lia.
  - destruct (fetch_rss_item_count unit answering_get (fun _ => Return tt)
                (fun _ => ""%string) (parse_to example_feed) id
                "http://feed.example/rss" (-1) 8) as [_ H].
    destruct (H tt example_feed eq_refl eq_refl eq_refl) as (_ & Hlen & _).
    exact Hlen.
Defined.

Lemma render_rss_of_fetch_witness :
  render_rss "http://unreachable.invalid/feed"
    (fetch_rss unit (failing_get (Exn "timed out")) (fun _ => Return tt)
       (fun _ => ""%string) (parse_to []) id "http://unreachable.invalid/feed" 10 8) =
    [RssWarning "timed out"] /\
  render_rss "http://unreachable.invalid/feed"
    (fetch_rss unit (failing_get (Exn "")) (fun _ => Return tt)
       (fun _ => ""%string) (parse_to []) id "http://unreachable.invalid/feed" 10 8) =
    [].
Proof.
  split.
  - destruct (render_rss_of_fetch unit (failing_get (Exn "timed out"))
                (fun _ => Return tt) (fun _ => ""%string) (parse_to []) id
                "http://unreachable.invalid/feed" 10 8) as (H & _).
    apply (H (Exn "timed out") eq_refl). discriminate.
  - destruct (render_rss_of_fetch unit (failing_get (Exn ""))
                (fun _ => Return tt) (fun _ => ""%string) (parse_to []) id
                "http://unreachable.invalid/feed" 10 8) as (_ & H & _).
    apply (H (Exn "") eq_refl). reflexivity.
Defined.

End FeedExtras.

Module ViewFacts.
Import Frames Ledgers Engine Views Props SumFacts.

Lemma cmp_Eq a b : PyDate.cmp a b = Eq <-> a = b.
Proof.
  rewrite PyDateFacts.cmp_toordinal, Z.compare_eq_iff. split.
  - apply PyDateFacts.toordinal_inj.
  - by intros ->.
Qed.

Lemma cmp_Lt a b : PyDate.cmp a b = Lt <-> PyDate.ltb a b = true.
Proof. unfold PyDate.ltb. destruct (PyDate.cmp a b); split; congruence. Qed.

Lemma cmp_Gt a b : PyDate.cmp a b = Gt <-> PyDate.ltb b a = true.
Proof.
  rewrite PyDateFacts.ltb_toordinal, PyDateFacts.cmp_toordinal, Z.compare_gt_iff. lia.
Qed.

Lemma eqb_eq a b : PyDate.eqb a b = true <-> a = b.
Proof.
  unfold PyDate.eqb. rewrite <- cmp_Eq. destruct (PyDate.cmp a b); split; congruence.
Qed.

Lemma ltb_trans a b c :
  PyDate.ltb a b = true -> PyDate.ltb b c = true -> PyDate.ltb a c = true.
Proof. rewrite !PyDateFacts.ltb_toordinal. lia. Qed.

Lemma ltb_irrefl a : PyDate.ltb a a = false.
Proof. apply not_true_is_false. rewrite PyDateFacts.ltb_toordinal. lia. Qed.

(** The dates of the daily sums after one more row. *)
Lemma add_day_keys d m acc x :
  x ∈ (add_day d m acc).*1 <-> x = d \/ x ∈ acc.*1.
Proof.
  induction acc as [|[d' m'] acc IH]; cbn [add_day].
  - cbn. rewrite list_elem_of_singleton, elem_of_nil. tauto.
  - destruct (PyDate.cmp d d') eqn:E; cbn [fmap list_fmap fst].
    + apply cmp_Eq in E as ->. rewrite !elem_of_cons. tauto.
    + rewrite !elem_of_cons. cbn. tauto.
    + rewrite !elem_of_cons, IH. tauto.
Qed.

Lemma add_day_sum d m acc :
  wrap64 (py_sum ((add_day d m acc).*2)) = wrap64 (m + py_sum (acc.*2)).
Proof.
  induction acc as [|[d' m'] acc IH]; cbn [add_day].
  - cbn [fmap list_fmap snd]. rewrite py_sum_cons. by rewrite wrap64_add_l.
  - destruct (PyDate.cmp d d'); cbn [fmap list_fmap snd];
      rewrite ?py_sum_cons; cbn [snd].
    + rewrite wrap64_add_l. f_equal. lia.
    + by rewrite wrap64_add_l.
    + rewrite <- wrap64_add_r, IH, wrap64_add_r. f_equal. lia.
Qed.

(** The sum held under date [x]. *)
Lemma add_day_value d m acc x :
  wrap64 (py_sum ((List.filter (fun kv => PyDate.eqb kv.1 x) (add_day d m acc)).*2)) =
  wrap64 ((if PyDate.eqb d x then m else 0) +
          py_sum ((List.filter (fun kv => PyDate.eqb kv.1 x) acc).*2)).
Proof.
  induction acc as [|[d' m'] acc IH]; cbn [add_day].
  - cbn [List.filter fst]. destruct (PyDate.eqb d x); cbn [fmap list_fmap snd].
    + rewrite py_sum_cons. by rewrite wrap64_add_l.
    + done.
  - destruct (PyDate.cmp d d') eqn:E.
    + apply cmp_Eq in E as ->. cbn [List.filter fst].
      destruct (PyDate.eqb d' x); cbn [fmap list_fmap snd]; rewrite ?py_sum_cons.
      * rewrite wrap64_add_l. f_equal. lia.
      * done.
    + cbn [List.filter fst].
      destruct (PyDate.eqb d x), (PyDate.eqb d' x); cbn [fmap list_fmap snd];
        rewrite ?py_sum_cons; cbn [snd]; rewrite ?py_sum_cons, ?wrap64_add_l; done.
    + cbn [List.filter fst].
      destruct (PyDate.eqb d' x); cbn [fmap list_fmap snd]; rewrite ?py_sum_cons.
      * rewrite <- wrap64_add_r, IH, wrap64_add_r. f_equal. lia.
      * exact IH.
Qed.

(** Every sum held is an [int64]. *)
Lemma add_day_int64 d m acc :
  Forall (fun kv => int64 kv.2) acc -> Forall (fun kv => int64 kv.2) (add_day d m acc).
Proof.
  induction 1 as [|[d' m'] acc Hm Hall IH]; cbn [add_day].
  - repeat constructor; apply wrap64_int64.
  - destruct (PyDate.cmp d d').
    + constructor; [apply wrap64_int64 | done].
    + constructor; [apply wrap64_int64|]. by constructor.
    + by constructor.
Qed.

Lemma add_day_sorted d m acc :
  StronglySorted by_date acc -> StronglySorted by_date (add_day d m acc).
Proof.
  induction 1 as [|[d' m'] acc Hs IH Hall]; cbn [add_day].
  - repeat constructor.
  - destruct (PyDate.cmp d d') eqn:E.
    + constructor; [done|]. eapply Forall_impl; [exact Hall|]. by intros [].
    + apply cmp_Lt in E. constructor; [by constructor|].
      constructor; [exact E|]. eapply Forall_impl; [exact Hall|].
      intros [d2 m2] H2. unfold by_date in *. cbn in *. by eapply ltb_trans.
    + apply cmp_Gt in E. constructor; [exact IH|].
      apply Forall_forall. intros [d2 m2] H2. unfold by_date. cbn.
      assert (d2 ∈ (add_day d m acc).*1) as Hk.
      { apply list_elem_of_fmap. by exists (d2, m2). }
      apply add_day_keys in Hk as [-> | Hk]; [exact E|].
      apply list_elem_of_fmap in Hk as ([d3 m3] & Heq & Hin). cbn in Heq. subst d3.
      rewrite Forall_forall in Hall. exact (Hall _ Hin).
Qed.

(** In a list in strict date order a date has one entry at most, so the sum
    held under a date is the value of its entry. *)
Lemma sorted_value l x v :
  StronglySorted by_date l -> (x, v) ∈ l ->
  py_sum ((List.filter (fun kv => PyDate.eqb kv.1 x) l).*2) = v.
Proof.
  induction 1 as [|[d' m'] l Hs IH Hall]; intros Hin.
  - by apply elem_of_nil in Hin.
  - cbn [List.filter fst]. apply elem_of_cons in Hin as [[= <- <-] | Hin].
    + assert (PyDate.eqb x x = true) as -> by by apply eqb_eq.
      cbn [fmap list_fmap snd]. rewrite py_sum_cons.
      assert (List.filter (fun kv : PyDate.date * Z => PyDate.eqb kv.1 x) l = []) as ->.
      { clear -Hall. induction l as [|[d2 m2] l IH]; [done|]. cbn [List.filter fst].
        apply Forall_cons in Hall as [H2 Hall]. unfold by_date in H2. cbn in H2.
        destruct (PyDate.eqb d2 x) eqn:E; [|by apply IH].
        apply eqb_eq in E as ->. by rewrite ltb_irrefl in H2. }
      cbn. lia.
    + rewrite Forall_forall in Hall. pose proof (Hall _ Hin) as Hlt.
      unfold by_date in Hlt. cbn in Hlt.
      destruct (PyDate.eqb d' x) eqn:E; [|by apply IH].
      apply eqb_eq in E as ->. by rewrite ltb_irrefl in Hlt.
Qed.

End ViewFacts.

Module ViewExtras.
Import Frames Ledgers Engine Views Props SumFacts ViewFacts.

Lemma daily_fold_facts (rs : list (entry PyDate.date)) (acc : list (PyDate.date * Z)) :
  StronglySorted by_date acc ->
  Forall (fun kv => int64 kv.2) acc ->
  let out := fold_left (fun acc r => add_day (date r) (minutes r) acc) rs acc in
  StronglySorted by_date out /\
  Forall (fun kv => int64 kv.2) out /\
  wrap64 (py_sum (out.*2)) = wrap64 (py_sum (acc.*2) + py_sum (minutes <$> rs)) /\
  (forall x, x ∈ out.*1 <-> x ∈ acc.*1 \/ x ∈ date <$> rs) /\
  (forall x,
     wrap64 (py_sum ((List.filter (fun kv => PyDate.eqb kv.1 x) out).*2)) =
     wrap64 (py_sum ((List.filter (fun kv => PyDate.eqb kv.1 x) acc).*2) +
             py_sum (minutes <$> List.filter (fun r => PyDate.eqb (date r) x) rs))).
Proof.
  revert acc. induction rs as [|r rs IH]; intros acc Hs Hi; cbn [fold_left].
  - split; [done|]. split; [done|]. split; [cbn; f_equal; lia|]. split.
    + intros x. rewrite fmap_nil, elem_of_nil. tauto.
    + intros x. cbn. f_equal. lia.
  - destruct (IH _ (add_day_sorted (date r) (minutes r) acc Hs)
                (add_day_int64 (date r) (minutes r) acc Hi))
      as (H1 & H0 & H2 & H3 & H4).
    split; [exact H1|]. split; [exact H0|]. split; [|split].
    + rewrite H2, <- wrap64_add_l, add_day_sum, wrap64_add_l, fmap_cons, py_sum_cons.
      f_equal. lia.
    + intros x. rewrite H3, add_day_keys, fmap_cons, elem_of_cons. tauto.
    + intros x. rewrite H4, <- wrap64_add_l, add_day_value, wrap64_add_l.
      cbn [List.filter].
      destruct (PyDate.eqb (date r) x); rewrite ?fmap_cons, ?py_sum_cons; f_equal; lia.
Qed.

(** X17. The daily totals of the second tab: one row per date that has a
    log, in strictly ascending date order, holding the [int64] sum of the
    minutes logged on that date, which is their sum whenever that sum is
    within the range of [int64]; together they add up to all the minutes
    logged, modulo [2 ^ 64]. *)
Theorem daily_totals_spec (df : DataFrame (entry PyDate.date)) :
  StronglySorted by_date (daily_totals df) /\
  wrap64 (py_sum ((daily_totals df).*2)) = wrap64 (py_sum (minutes <$> rows df)) /\
  (forall x, x ∈ (daily_totals df).*1 <-> x ∈ date <$> rows df) /\
  (forall x v, (x, v) ∈ daily_totals df ->
     v = wrap64 (py_sum (minutes <$>
                   List.filter (fun r => PyDate.eqb (date r) x) (rows df))) /\
     (int64 (py_sum (minutes <$>
                List.filter (fun r => PyDate.eqb (date r) x) (rows df))) ->
      v = py_sum (minutes <$> List.filter (fun r => PyDate.eqb (date r) x) (rows df)))).
Proof.
  destruct (daily_fold_facts (rows df) [] (SSorted_nil _) (List.Forall_nil _))
    as (H1 & H0 & H2 & H3 & H4).
  fold (daily_totals df) in *.
  split; [exact H1|]. split; [rewrite H2; cbn; f_equal; lia|]. split.
  - intros x. rewrite H3, fmap_nil, elem_of_nil. tauto.
  - intros x v Hin.
    assert (v = wrap64 (py_sum (minutes <$>
                  List.filter (fun r => PyDate.eqb (date r) x) (rows df)))) as Hv.
    { rewrite Forall_forall in H0. pose proof (H0 _ Hin) as Hi. cbn in Hi.
      rewrite <- (wrap64_id v Hi), <- (sorted_value _ _ _ H1 Hin), H4.
      by cbn. }
    split; [exact Hv|]. intros Hsum. by rewrite Hv, wrap64_id.
Qed.

Lemma daily_totals_spec_witness :
  daily_totals example_entries =
    [(PyDate.Date 2024 1 1 I, 40); (PyDate.Date 2024 1 2 I, 20)] /\
  int64 (py_sum (minutes <$>
           List.filter (fun r => PyDate.eqb (date r) (PyDate.Date 2024 1 1 I))
             (rows example_entries))) /\
  40 = py_sum (minutes <$>
         List.filter (fun r => PyDate.eqb (date r) (PyDate.Date 2024 1 1 I))
           (rows example_entries)).
Proof.
  assert (int64 (py_sum (minutes <$>
            List.filter (fun r => PyDate.eqb (date r) (PyDate.Date 2024 1 1 I))
              (rows example_entries)))) as Hin.
  { vm_compute. split; [discriminate | reflexivity]. }
  split; [by vm_compute|]. split; [exact Hin|].
  destruct (daily_totals_spec example_entries) as (_ & _ & _ & H).
  apply (H (PyDate.Date 2024 1 1 I) 40); [|exact Hin].
  vm_compute. left.
Defined.

Lemma omap_keys_sublist {A B} (f : A -> option B) (l : list A) :
  (omap (fun a => match f a with Some b => Some (a, b) | None => None end) l).*1
    `sublist_of` l.
Proof.
  induction l as [|a l IH]; cbn; [done|].
  destruct (f a); cbn; by constructor.
Qed.

(** X18. The table of daily tasks of a week lists the days in the order
    Mon .. Sun, each at most once, a day being listed exactly when the plan
    has a task under that name; a task filed under any other key (such as
    "Monday") is never shown. *)
Theorem daily_task_rows_spec (daily : gmap string string) :
  (daily_task_rows daily).*1 `sublist_of` weekday_order /\
  (forall d task, (d, task) ∈ daily_task_rows daily <->
     d ∈ weekday_order /\ daily !! d = Some task) /\
  (length (daily_task_rows daily) <= 7)%nat.
Proof.
  assert ((daily_task_rows daily).*1 `sublist_of` weekday_order) as Hsub
    by apply omap_keys_sublist.
  split; [exact Hsub|]. split.
  - intros d task. unfold daily_task_rows. rewrite list_elem_of_omap. split.
    + intros (d' & Hd' & Hf). destruct (daily !! d') eqn:E; [|done].
      injection Hf as <- <-. done.
    + intros [Hd Ht]. exists d. by rewrite Ht.
  - apply sublist_length in Hsub. by rewrite length_fmap in Hsub.
Qed.

End ViewExtras.
